(** * RTanks Online Discord bot: a shallow embedding of [src/bot.py]

    The development follows the Python source function by function.
    Python [str] values are modelled as [string] (UTF-8 bytes; the
    whitespace and case functions act on the ASCII range), Python [int]
    as [Z], Python [float] as exact rationals [Q], a player-data [dict]
    as a [gmap string pyval], and the mutable bot object together with the
    Discord follow-up channel and the scraper call log as one explicit
    [World] record threaded through a state-and-exception monad.

    The handlers are given twice: first as they run while every awaited
    call returns or raises an instance of [Exception] and the usernames
    are ASCII text; then, in the module [General], with awaited calls that
    may raise any exception and with [str.strip] and [str.lower] as
    parameters. The two are shown to agree where the first applies. *)

From Stdlib Require Import ZArith QArith Qround Qabs Lqa Lia Bool List.
From Stdlib Require Import Ascii String DecimalString DecimalPos DecimalN DecimalZ.
From stdpp Require Import base option list gmap strings.

Import ListNotations.
#[local] Open Scope Z_scope.

(* ===================================================================== *)
(** * Python primitives *)
(* ===================================================================== *)

Module Py.

(** The exception classes the modelled code can meet; all of them derive
    from [Exception], so every [except Exception] clause catches them. *)
Inductive exn : Type :=
| ValueError
| TypeError
| KeyError (key : string)
| ZeroDivisionError
| RuntimeError (msg : string).

(** A computation that either returns or raises. *)
Inductive result (A : Type) : Type :=
| Ok (a : A)
| Raise (e : exn).
Arguments Ok {A} a.
Arguments Raise {A} e.

Definition is_ok {A} (r : result A) : bool :=
  match r with Ok _ => true | Raise _ => false end.

Definition rbind {A B} (r : result A) (k : A -> result B) : result B :=
  match r with
  | Ok a => k a
  | Raise e => Raise e
  end.

(** ** Strings *)

(** [str.isspace] on the ASCII range: TAB, LF, VT, FF, CR, the four
    separators 0x1c-0x1f and the space. *)
Definition isspace (c : ascii) : bool :=
  let n := N_of_ascii c in
  ((9 <=? n) && (n <=? 13) || (28 <=? n) && (n <=? 32))%N.

Fixpoint lstrip (s : string) : string :=
  match s with
  | EmptyString => EmptyString
  | String c s' => if isspace c then lstrip s' else s
  end.

Fixpoint rstrip (s : string) : string :=
  match s with
  | EmptyString => EmptyString
  | String c s' =>
      match rstrip s' with
      | EmptyString => if isspace c then EmptyString else String c EmptyString
      | r => String c r
      end
  end.

(** [s.strip()] *)
Definition strip (s : string) : string := rstrip (lstrip s).

Definition lower_char (c : ascii) : ascii :=
  let n := N_of_ascii c in
  if ((65 <=? n) && (n <=? 90))%N then ascii_of_N (n + 32) else c.

(** [s.lower()] *)
Fixpoint lower (s : string) : string :=
  match s with
  | EmptyString => EmptyString
  | String c s' => String (lower_char c) (lower s')
  end.

(** [str(n)] for an [int]. *)
Definition str_of_Z (z : Z) : string := NilZero.string_of_int (Z.to_int z).
Definition str_of_N (n : N) : string := NilZero.string_of_uint (N.to_uint n).

(** ** Dynamic values stored in a player-data dictionary *)

Inductive pyval : Type :=
| PyNone
| PyBool (b : bool)
| PyInt (z : Z)
| PyStr (s : string).

(** [str(v)], as an f-string placeholder renders a value. *)
Definition str_of (v : pyval) : string :=
  match v with
  | PyNone => "None"
  | PyBool true => "True"
  | PyBool false => "False"
  | PyInt z => str_of_Z z
  | PyStr s => s
  end.

(** [d[key]]: raises [KeyError] when the key is absent. *)
Definition getitem (d : gmap string pyval) (key : string) : result pyval :=
  match d !! key with
  | Some v => Ok v
  | None => Raise (KeyError key)
  end.

(** [d.get(key, dflt)] *)
Definition get (d : gmap string pyval) (key : string) (dflt : pyval) : pyval :=
  default dflt (d !! key).

(** Truth value of [player_data] in [if not player_data]: [None] and the
    empty dictionary are false. *)
Definition truthy (o : option (gmap string pyval)) : bool :=
  match o with
  | None => false
  | Some d => bool_decide (d ≠ ∅)
  end.

(** ** Numbers *)

Definition as_number (v : pyval) : option Z :=
  match v with
  | PyInt z => Some z
  | PyBool b => Some (Z.b2z b)
  | _ => None
  end.

(** [a > b]: numbers compare by value, strings by code point, and any
    other pairing raises [TypeError]. *)
Definition gt (a b : pyval) : result bool :=
  match as_number a, as_number b with
  | Some x, Some y => Ok (y <? x)
  | _, _ =>
      match a, b with
      | PyStr s, PyStr t => Ok (String.ltb t s)
      | _, _ => Raise TypeError
      end
  end.

(** Splits a numeral at its first ["."]. *)
Fixpoint split_dot (s : string) : string * option string :=
  match s with
  | EmptyString => (EmptyString, None)
  | String c s' =>
      if Ascii.eqb c "." then (EmptyString, Some s')
      else let (a, b) := split_dot s' in (String c a, b)
  end.

(** Value of a (possibly empty) run of decimal digits. *)
Definition digits (s : string) : option N :=
  option_map N.of_uint (NilEmpty.uint_of_string s).

Definition unsigned_decimal (s : string) : option Q :=
  match split_dot s with
  | (EmptyString, None) => None
  | (ip, None) => option_map (fun i => inject_Z (Z.of_N i)) (digits ip)
  | (EmptyString, Some EmptyString) => None
  | (ip, Some fp) =>
      match digits ip, digits fp with
      | Some i, Some f =>
          Some (inject_Z (Z.of_N i)
                + inject_Z (Z.of_N f) / inject_Z (10 ^ Z.of_nat (String.length fp)))%Q
      | _, _ => None
      end
  end.

(** [float(s)] for a string, on the plain decimal fragment of Python's
    grammar: surrounding whitespace, an optional sign, digits with an
    optional fractional part. Exponents, digit-group underscores and the
    [inf]/[nan] spellings have no exact rational value and are not part of
    the fragment. *)
Definition float_of_string (s : string) : result Q :=
  let body := strip s in
  let parsed :=
    match body with
    | String "-" rest => option_map Qopp (unsigned_decimal rest)
    | String "+" rest => unsigned_decimal rest
    | _ => unsigned_decimal body
    end in
  match parsed with
  | Some q => Ok q
  | None => Raise ValueError
  end.

(** [float(v)] *)
Definition float (v : pyval) : result Q :=
  match v with
  | PyStr s => float_of_string s
  | PyInt z => Ok (inject_Z z)
  | PyBool b => Ok (inject_Z (Z.b2z b))
  | PyNone => Raise TypeError
  end.

(** [round(x, ndigits)] on an exact rational: to the nearest multiple of
    [10 ^ -ndigits], ties to the even neighbour. *)
Definition round_half_even (q : Q) : Z :=
  let f := Qfloor q in
  let r := (q - inject_Z f)%Q in
  match (r ?= 1 # 2)%Q with
  | Lt => f
  | Gt => f + 1
  | Eq => if Z.even f then f else f + 1
  end.

Definition round (q : Q) (ndigits : nat) : Q :=
  (inject_Z (round_half_even (q * inject_Z (10 ^ Z.of_nat ndigits)))
   / inject_Z (10 ^ Z.of_nat ndigits))%Q.

(** [a / b] on floats: raises [ZeroDivisionError] on a zero divisor. *)
Definition truediv (a b : Q) : result Q :=
  if Qeq_bool b 0 then Raise ZeroDivisionError else Ok (a / b)%Q.

Definition nl : string := String (ascii_of_N 10) EmptyString.

End Py.

Import Py.

(** Monadic notation for computations that may raise. *)
#[global] Instance result_ret : MRet result := @Ok.
#[global] Instance result_bind : MBind result := fun A B k r => rbind r k.

(* ===================================================================== *)
(** * The Discord side: embeds and the bot object *)
(* ===================================================================== *)

Record EmbedField : Type := mkField {
  name : string;
  value : string;
  inline : bool
}.

(** The part of [discord.Embed] the handlers fill in. *)
Record Embed : Type := mkEmbed {
  title : string;
  description : option string;
  color : Z;
  timestamp : option Q;
  fields : list EmbedField;
  footer : option (string * option string)
}.

Definition add_field (f : EmbedField) (e : Embed) : Embed :=
  mkEmbed (title e) (description e) (color e) (timestamp e)
          (fields e ++ [f]) (footer e).

Definition set_footer (text : string) (icon_url : option string) (e : Embed) : Embed :=
  mkEmbed (title e) (description e) (color e) (timestamp e)
          (fields e) (Some (text, icon_url)).

(** The attributes of [RTanksBot] set in [__init__] (lines 34-39) together
    with the two channels the handlers act on: the embeds passed to
    [interaction.followup.send] and the usernames passed to
    [self.scraper.get_player_data], both oldest first. *)
Record World : Type := mkWorld {
  start_time : Q;
  commands_processed : Z;
  scraping_successes : Z;
  scraping_failures : Z;
  total_scraping_time : Q;
  sent : list Embed;
  lookups : list string
}.

(** [RTanksBot.__init__]: [now] is the reading of [datetime.now()]. *)
Definition init (now : Q) : World :=
  mkWorld now 0 0 0 0%Q [] [].

(** State-and-exception monad: a raised exception keeps the state reached
    so far, as attribute updates made before a Python [raise] persist. *)
Definition M (A : Type) : Type := World -> result A * World.

Definition ret {A} (a : A) : M A := fun w => (Ok a, w).

Definition bind {A B} (m : M A) (k : A -> M B) : M B :=
  fun w =>
    match m w with
    | (Ok a, w') => k a w'
    | (Raise e, w') => (Raise e, w')
    end.

(** [try: body except Exception as e: handler e] *)
Definition try_except {A} (body : M A) (handler : exn -> M A) : M A :=
  fun w =>
    match body w with
    | (Ok a, w') => (Ok a, w')
    | (Raise e, w') => handler e w'
    end.

(** A pure computation that may raise, run inside a handler. *)
Definition lift {A} (r : result A) : M A := fun w => (r, w).

#[global] Instance M_ret : MRet M := @ret.
#[global] Instance M_bind : MBind M := fun A B k m => bind m k.

(** [await interaction.followup.send(embed=embed)] *)
Definition send (e : Embed) : M unit :=
  fun w => (Ok tt,
    mkWorld (start_time w) (commands_processed w) (scraping_successes w)
            (scraping_failures w) (total_scraping_time w)
            (sent w ++ [e]) (lookups w)).

(** [self.commands_processed += 1] *)
Definition incr_commands_processed : M unit :=
  fun w => (Ok tt,
    mkWorld (start_time w) (commands_processed w + 1) (scraping_successes w)
            (scraping_failures w) (total_scraping_time w)
            (sent w) (lookups w)).

(** [self.scraping_successes += n] *)
Definition add_scraping_successes (n : Z) : M unit :=
  fun w => (Ok tt,
    mkWorld (start_time w) (commands_processed w) (scraping_successes w + n)
            (scraping_failures w) (total_scraping_time w)
            (sent w) (lookups w)).

(** [self.scraping_failures += n] *)
Definition add_scraping_failures (n : Z) : M unit :=
  fun w => (Ok tt,
    mkWorld (start_time w) (commands_processed w) (scraping_successes w)
            (scraping_failures w + n) (total_scraping_time w)
            (sent w) (lookups w)).

(** [self.total_scraping_time += scraping_time] *)
Definition add_total_scraping_time (scraping_time : Q) : M unit :=
  fun w => (Ok tt,
    mkWorld (start_time w) (commands_processed w) (scraping_successes w)
            (scraping_failures w) (total_scraping_time w + scraping_time)%Q
            (sent w) (lookups w)).

(** The state of the bot object read by a handler. *)
Definition get_world : M World := fun w => (Ok w, w).

(* ===================================================================== *)
(** * Command handlers *)
(* ===================================================================== *)

(** A number shown in the statistics embed: the literal [0] the handler
    starts from, or the float it computes. *)
Inductive num : Type :=
| NInt (z : Z)
| NFloat (q : Q).

(** What the [/botstats] handler reads from its surroundings: the gateway
    latency, [datetime.now()] for the uptime and for the embed, the
    process figures from [psutil], the guild count, the bot user's avatar
    and the course of the website probe ([time.time()] before the request,
    then the response status with [time.time()] on arrival, or the
    exception raised anywhere inside the [async with] blocks). *)
Record BotEnv : Type := mkBotEnv {
  latency : Q;
  uptime_now : Q;
  embed_now : Q;
  memory_rss : Z;
  cpu_percent : Q;
  guilds : nat;
  user_avatar : option string;
  probe_start : Q;
  probe_response : result (Z * Q)
}.

(** Readings of the wall clock taken by one handler invocation:
    [time.time()] on entry, [datetime.now()] when an embed is stamped, and
    [time.time()] after the reply was sent. *)
Record Clock : Type := mkClock {
  time_start : Q;
  datetime_now : Q;
  time_end : Q
}.

(** One slash-command interaction, with what the handler will read. *)
Inductive Interaction : Type :=
| PlayerCommand (username : string) (clk : Clock)
| CompareCommand (player1 player2 : string) (clk : Clock)
| BotstatsCommand (env : BotEnv).

(** [interaction.response.defer()], [interaction.followup.send] and the
    [logger] calls are Discord and logging I/O: they are taken to succeed,
    a sent embed is appended to [sent], and the log is not part of the
    state. *)
Section Handlers.

(** [self.scraper.get_player_data]: the scraper module is imported, not
    part of this file; a call returns a dictionary, [None], or raises. *)
Variable get_player_data : string -> result (option (gmap string pyval)).

(** [utils.format_exact_number] and [config.GOLD_BOX_EMOJI]. *)
Variable format_exact_number : pyval -> result string.
Variable GOLD_BOX_EMOJI : string.

(** [_create_player_embed] (lines 286-381) only renders a found record;
    the handlers are verified for every behaviour it may have, including
    raising. *)
Variable _create_player_embed : gmap string pyval -> Q -> result Embed.

(** [await self.scraper.get_player_data(username)]: the call is logged
    and an exception raised by the scraper propagates to the caller. *)
Definition await_get_player_data (username : string)
  : M (option (gmap string pyval)) :=
  fun w =>
    (get_player_data username,
     mkWorld (start_time w) (commands_processed w) (scraping_successes w)
             (scraping_failures w) (total_scraping_time w)
             (sent w) (lookups w ++ [username])).

(** One task of [asyncio.gather(..., return_exceptions=True)]: the call
    is made, and an exception becomes the task's result. *)
Definition gather_task (username : string)
  : M (result (option (gmap string pyval))) :=
  fun w =>
    (Ok (get_player_data username),
     mkWorld (start_time w) (commands_processed w) (scraping_successes w)
             (scraping_failures w) (total_scraping_time w)
             (sent w) (lookups w ++ [username])).

(** The branch taken by [if not player_data]. *)
Definition found (player_data : option (gmap string pyval))
  : option (gmap string pyval) :=
  if truthy player_data then player_data else None.

(** ** [/player] (lines 67-106) *)

Definition player_not_found_embed (username : string) : Embed :=
  mkEmbed "❌ Player Not Found"
    (Some ("Could not find player data for `" +:+ username
           +:+ "`. Please check the username and try again."))
    0xff0000 None [] None.

Definition player_error_embed : Embed :=
  mkEmbed "⚠️ Error"
    (Some "An error occurred while fetching player data. The RTanks website might be temporarily unavailable.")
    0xffa500 None [] None.

Definition player_command_handler (username : string) (clk : Clock) : M unit :=
  incr_commands_processed ;;
  try_except
    (player_data ← await_get_player_data (strip username);
     match found player_data with
     | None =>
         send (player_not_found_embed username) ;;
         add_scraping_failures 1
     | Some data =>
         embed ← lift (_create_player_embed data (datetime_now clk));
         send embed ;;
         add_total_scraping_time (time_end clk - time_start clk) ;;
         add_scraping_successes 1
     end)
    (fun e =>
       send player_error_embed ;;
       add_scraping_failures 1).

(** ** [_create_comparison_embed] (lines 383-489) *)

(** Lines 395-413 and 435-453: the experience and the gold-box fields are
    built the same way from two numbers. *)
Definition number_comparison (p1_name p2_name : string) (p1 p2 : pyval)
  : result string :=
  p1_wins ← gt p1 p2;
  if (p1_wins : bool) then
    f1 ← format_exact_number p1;
    f2 ← format_exact_number p2;
    Ok (strip (("**" +:+ p1_name +:+ "** (" +:+ f1 +:+ ")") +:+ nl
               +:+ (p2_name +:+ " (" +:+ f2 +:+ ")")))
  else
    p2_wins ← gt p2 p1;
    if (p2_wins : bool) then
      f2 ← format_exact_number p2;
      f1 ← format_exact_number p1;
      Ok (strip (("**" +:+ p2_name +:+ "** (" +:+ f2 +:+ ")") +:+ nl
                 +:+ (p1_name +:+ " (" +:+ f1 +:+ ")")))
    else
      f1 ← format_exact_number p1;
      Ok (strip (("**Tie** (" +:+ f1 +:+ ")") +:+ nl +:+ "")).

(** Lines 415-433: the K/D field. Both ratios are read with
    [float(player_data.get('kd_ratio', '0.00'))] and compared as floats;
    the stored display strings are what is printed. *)
Definition kd_comparison (p1_name p2_name : string)
    (player1_data player2_data : gmap string pyval) : result string :=
  p1_kd ← float (get player1_data "kd_ratio" (PyStr "0.00"));
  p2_kd ← float (get player2_data "kd_ratio" (PyStr "0.00"));
  if negb (Qle_bool p1_kd p2_kd) then
    k1 ← getitem player1_data "kd_ratio";
    k2 ← getitem player2_data "kd_ratio";
    Ok (strip (("**" +:+ p1_name +:+ "** (" +:+ str_of k1 +:+ ")") +:+ nl
               +:+ (p2_name +:+ " (" +:+ str_of k2 +:+ ")")))
  else if negb (Qle_bool p2_kd p1_kd) then
    k2 ← getitem player2_data "kd_ratio";
    k1 ← getitem player1_data "kd_ratio";
    Ok (strip (("**" +:+ p2_name +:+ "** (" +:+ str_of k2 +:+ ")") +:+ nl
               +:+ (p1_name +:+ " (" +:+ str_of k1 +:+ ")")))
  else
    k1 ← getitem player1_data "kd_ratio";
    Ok (strip (("**Tie** (" +:+ str_of k1 +:+ ")") +:+ nl +:+ "")).

(** Lines 457-470: one player's details block. *)
Definition player_details (p_name : string) (player_data : gmap string pyval)
  : result string :=
  rank ← getitem player_data "rank";
  kills ← format_exact_number (get player_data "kills" (PyInt 0));
  deaths ← format_exact_number (get player_data "deaths" (PyInt 0));
  Ok ("**" +:+ p_name +:+ "**" +:+ nl
      +:+ "Rank: " +:+ str_of rank +:+ nl
      +:+ "Kills: " +:+ kills +:+ nl
      +:+ "Deaths: " +:+ deaths).

(** The zero-width space U+200B in UTF-8. *)
Definition zwsp : string :=
  String (ascii_of_N 226) (String (ascii_of_N 128) (String (ascii_of_N 139) EmptyString)).

Definition _create_comparison_embed
    (player1_data player2_data : gmap string pyval) (now : Q) : result Embed :=
  n1 ← getitem player1_data "username";
  n2 ← getitem player2_data "username";
  let p1_name := str_of n1 in
  let p2_name := str_of n2 in
  let embed :=
    mkEmbed "Player Comparison"
      (Some ("**" +:+ p1_name +:+ "** vs **" +:+ p2_name +:+ "**"))
      0x00ff00 (Some now) [] None in
  exp ← number_comparison p1_name p2_name
          (get player1_data "experience" (PyInt 0))
          (get player2_data "experience" (PyInt 0));
  let embed := add_field (mkField "Experience" exp true) embed in
  kd ← kd_comparison p1_name p2_name player1_data player2_data;
  let embed := add_field (mkField "K/D Ratio" kd true) embed in
  gold ← number_comparison p1_name p2_name
           (get player1_data "gold_boxes" (PyInt 0))
           (get player2_data "gold_boxes" (PyInt 0));
  let embed := add_field (mkField (GOLD_BOX_EMOJI +:+ " Gold Boxes") gold true) embed in
  p1_details ← player_details p1_name player1_data;
  p2_details ← player_details p2_name player2_data;
  let embed := add_field (mkField "Player 1" p1_details true) embed in
  let embed := add_field (mkField "Player 2" p2_details true) embed in
  let embed := add_field (mkField zwsp zwsp true) embed in
  Ok (set_footer "Data from ratings.ranked-rtanks.online" None embed).

(** ** [/compare] (lines 112-197) *)

Definition invalid_comparison_embed : Embed :=
  mkEmbed "❌ Invalid Comparison"
    (Some "Cannot compare a player with themselves. Please provide two different usernames.")
    0xff0000 None [] None.

Definition players_not_found_embed (player1 player2 : string) : Embed :=
  mkEmbed "❌ Players Not Found"
    (Some ("Could not find data for either `" +:+ player1 +:+ "` or `" +:+ player2
           +:+ "`. Please check the usernames and try again."))
    0xff0000 None [] None.

Definition compare_not_found_embed (player : string) : Embed :=
  mkEmbed "❌ Player Not Found"
    (Some ("Could not find data for `" +:+ player
           +:+ "`. Please check the username and try again."))
    0xff0000 None [] None.

Definition compare_error_embed : Embed :=
  mkEmbed "⚠️ Error"
    (Some "An error occurred while comparing players. The RTanks website might be temporarily unavailable.")
    0xffa500 None [] None.

(** Lines 143-148: an exception returned by [gather] is replaced by
    [None]. *)
Definition exception_to_none (r : result (option (gmap string pyval)))
  : option (gmap string pyval) :=
  match r with
  | Ok data => data
  | Raise _ => None
  end.

Definition compare_command_handler (player1 player2 : string) (clk : Clock)
  : M unit :=
  incr_commands_processed ;;
  try_except
    (let player1 := strip player1 in
     let player2 := strip player2 in
     if String.eqb (lower player1) (lower player2) then
       send invalid_comparison_embed
     else
       r1 ← gather_task player1;
       r2 ← gather_task player2;
       let player1_data := exception_to_none r1 in
       let player2_data := exception_to_none r2 in
       match found player1_data, found player2_data with
       | None, None =>
           send (players_not_found_embed player1 player2) ;;
           add_scraping_failures 2
       | None, Some _ =>
           send (compare_not_found_embed player1) ;;
           add_scraping_failures 1
       | Some _, None =>
           send (compare_not_found_embed player2) ;;
           add_scraping_failures 1
       | Some data1, Some data2 =>
           embed ← lift (_create_comparison_embed data1 data2 (datetime_now clk));
           send embed ;;
           add_total_scraping_time (time_end clk - time_start clk) ;;
           add_scraping_successes 2
       end)
    (fun e =>
       send compare_error_embed ;;
       add_scraping_failures 1).

(** ** [_check_website_status] (lines 491-504) *)

(** [utils.format_duration], [utils.format_number], and the text Python
    prints for a float in an f-string. *)
Variable format_duration : Q -> string.
Variable format_number : Z -> string.
Variable str_of_float : Q -> string.

Definition _check_website_status (start : Q) (response : result (Z * Q))
  : M string :=
  try_except
    (r ← lift response;
     let response_time := round ((snd r - start) * 1000) 2 in
     if fst r =? 200 then
       mret ("🟢 Online (" +:+ str_of_float response_time +:+ "ms)")
     else
       mret ("🟡 Partial (" +:+ str_of_Z (fst r) +:+ ")"))
    (fun _ => mret "🔴 Offline").

(** ** [/botstats] (lines 199-284) *)

Definition str_of_num (n : num) : string :=
  match n with
  | NInt z => str_of_Z z
  | NFloat q => str_of_float q
  end.

(** Lines 208-211. *)
Definition avg_scraping_latency (self : World) : result num :=
  if 0 <? scraping_successes self then
    q ← truediv (total_scraping_time self) (inject_Z (scraping_successes self));
    Ok (NFloat (round (q * 1000) 2))
  else Ok (NInt 0).

(** Lines 222-226. *)
Definition success_rate (self : World) : result num :=
  let total_scrapes := scraping_successes self + scraping_failures self in
  if 0 <? total_scrapes then
    q ← truediv (inject_Z (scraping_successes self)) (inject_Z total_scrapes);
    Ok (NFloat (round (q * 100) 1))
  else Ok (NInt 0).

(** Lines 205-206, 213-220 and 228-282: the embed, from the two guarded
    quotients and the website status. *)
Definition botstats_embed (env : BotEnv) (self : World) (avg rate : num)
    (website_status : string) : Embed :=
  let bot_latency := round (latency env * 1000) 2 in
  let uptime_str := format_duration (uptime_now env - start_time self) in
  let memory_usage := round (inject_Z (memory_rss env) / 1024 / 1024) 2 in
  let cpu_usage := round (cpu_percent env) 1 in
  let embed := mkEmbed "🤖 Bot Statistics" None 0x00ff00 (Some (embed_now env)) [] None in
  let embed := add_field (mkField "📡 Latency"
    ("**Discord API:** " +:+ str_of_float bot_latency +:+ "ms" +:+ nl
     +:+ "**Scraping Avg:** " +:+ str_of_num avg +:+ "ms") true) embed in
  let embed := add_field (mkField "⏱️ Uptime" uptime_str true) embed in
  let embed := add_field (mkField "🌐 Servers"
    (str_of_Z (Z.of_nat (guilds env))) true) embed in
  let embed := add_field (mkField "📊 Commands"
    ("**Total Processed:** " +:+ format_number (commands_processed self) +:+ nl
     +:+ "**Success Rate:** " +:+ str_of_num rate +:+ "%") true) embed in
  let embed := add_field (mkField "🔍 Scraping Stats"
    ("**Successful:** " +:+ format_number (scraping_successes self) +:+ nl
     +:+ "**Failed:** " +:+ format_number (scraping_failures self)) true) embed in
  let embed := add_field (mkField "💻 System Resources"
    ("**Memory:** " +:+ str_of_float memory_usage +:+ " MB" +:+ nl
     +:+ "**CPU:** " +:+ str_of_float cpu_usage +:+ "%") true) embed in
  let embed := add_field (mkField "🌍 Website Status" website_status false) embed in
  set_footer "RTanks Online Bot" (user_avatar env) embed.

Definition botstats_command_handler (env : BotEnv) : M unit :=
  incr_commands_processed ;;
  self ← get_world;
  avg ← lift (avg_scraping_latency self);
  rate ← lift (success_rate self);
  website_status ← _check_website_status (probe_start env) (probe_response env);
  send (botstats_embed env self avg rate website_status).

(** The command tree filled in by [setup_hook] (lines 47-49). *)
Definition dispatch (i : Interaction) : M unit :=
  match i with
  | PlayerCommand username clk => player_command_handler username clk
  | CompareCommand player1 player2 clk =>
      compare_command_handler player1 player2 clk
  | BotstatsCommand env => botstats_command_handler env
  end.

(** The bot serving interactions one at a time. An exception that
    leaves a handler is reported by [on_command_error] and the bot goes
    on with the state reached. *)
Definition serve (w : World) (todo : list Interaction) : World :=
  fold_left (fun w i => snd (dispatch i w)) todo w.

End Handlers.

(** The duration a handler measures, [time.time() - start_time]. *)
Definition elapsed (i : Interaction) : Q :=
  match i with
  | PlayerCommand _ clk => time_end clk - time_start clk
  | CompareCommand _ _ clk => time_end clk - time_start clk
  | BotstatsCommand _ => 0
  end.

(** What one handler invocation may do to the four counters: one more
    command, no fewer successes or failures, and the scraping time either
    kept or increased by the measured duration. *)
Definition counters_step (duration : Q) (w w' : World) : Prop :=
  commands_processed w' = commands_processed w + 1
  /\ scraping_successes w <= scraping_successes w'
  /\ scraping_failures w <= scraping_failures w'
  /\ ((total_scraping_time w' == total_scraping_time w)%Q
      \/ (total_scraping_time w' == total_scraping_time w + duration)%Q).

(* ===================================================================== *)
(** * The scraper service *)
(* ===================================================================== *)

(** [scraper.py] is imported by the bot but is not among the sources; its
    contract is the one written down in the specification (sections 3, 4
    and 7), and the definitions of this module follow that text. *)
Module Scraper.

(** ** Normalizer (section 4.3) *)

Definition is_digit (c : ascii) : bool :=
  let n := N_of_ascii c in ((48 <=? n) && (n <=? 57))%N.

(** Modelled from the spec: the thousands separator of "thousands-separated
    experience counts" such as [105,613]; the normalizer that drops it is
    absent from the sources. *)
Definition is_separator (c : ascii) : bool := Ascii.eqb c ",".

Fixpoint remove_separators (s : string) : string :=
  match s with
  | EmptyString => EmptyString
  | String c s' =>
      if is_separator c then remove_separators s'
      else String c (remove_separators s')
  end.

(** Modelled from the spec: the integer conversion inside the normalizer,
    which is absent from the sources. "Numeric text (e.g.,
    thousands-separated experience counts) is parsed into integers": the
    text is trimmed, its separators are dropped, and what remains must be a
    non-empty run of digits; anything else is a parse fault. *)
Definition parse_count (text : string) : result N :=
  match remove_separators (strip text) with
  | EmptyString => Raise ValueError
  | cleaned =>
      match digits cleaned with
      | Some n => Ok n
      | None => Raise ValueError
      end
  end.

(** Modelled from the spec: numeric normalization of one raw field, absent
    from the sources. "For all malformed or missing numeric fields,
    normalization yields 0, never a parse crash": a missing field and a
    parse fault both give 0. *)
Definition normalize_count (raw : option string) : N :=
  match raw with
  | None => 0%N
  | Some text =>
      match parse_count text with
      | Ok n => n
      | Raise _ => 0%N
      end
  end.

(** Modelled from the spec: a count as the site prints it ("thousands-
    separated"), the page being absent from the sources: digits in groups
    of three, from the right, joined by the separator. [k] digits may
    still join the current group. *)
Fixpoint group_from_right (k : nat) (rev_digits : list ascii) : list ascii :=
  match rev_digits with
  | [] => []
  | c :: rest =>
      match k with
      | O => ","%char :: c :: group_from_right 2 rest
      | S k' => c :: group_from_right k' rest
      end
  end.

Definition thousands_separated (n : N) : string :=
  string_of_list_ascii
    (rev (group_from_right 3 (rev (list_ascii_of_string (str_of_N n))))).

(** Python's [string.punctuation]. *)
Definition is_punctuation (c : ascii) : bool :=
  let n := N_of_ascii c in
  ((33 <=? n) && (n <=? 47) || (58 <=? n) && (n <=? 64)
   || (91 <=? n) && (n <=? 96) || (123 <=? n) && (n <=? 126))%N.

(** Modelled from the spec: a rank of the absent normalizer, "one of a
    fixed, finite, ordered set of known ranks" given by its position in
    the table, or the sentinel "unknown rank" value. *)
Inductive Rank : Type :=
| Known (index : nat)
| Unknown.

(** Modelled from the spec: the rendering of the absent normalizer,
    "formatted to 2 decimal places as a display string", which is
    ["{:.2f}".format(q)] on an exact rational. *)
Definition digit_char (d : N) : ascii := ascii_of_N (48 + d).

Definition format_2f (q : Q) : string :=
  let h := round_half_even (q * 100) in
  let a := Z.to_N (Z.abs h) in
  (if h <? 0 then "-" else "")
  +:+ str_of_N (a / 100) +:+ "."
  +:+ String (digit_char ((a mod 100) / 10))
        (String (digit_char ((a mod 100) mod 10)) EmptyString).

(** Modelled from the spec: the parser's output (section 4.2), absent from
    the sources. A field the page does not show is [None]. *)
Record RawFields : Type := mkRaw {
  raw_username : string;
  raw_rank : option string;
  raw_experience : option string;
  raw_max_experience : option string;
  raw_kills : option string;
  raw_deaths : option string;
  raw_kd_ratio : option string;
  raw_premium : bool;
  raw_gold_boxes : option string;
  raw_group : option string;
  raw_turrets : list string;
  raw_hulls : list string;
  raw_is_online : bool
}.

(** Modelled from the spec: the [PlayerRecord] of section 3. *)
Record PlayerRecord : Type := mkRecord {
  username : string;
  rank : Rank;
  experience : N;
  max_experience : option N;
  kills : N;
  deaths : N;
  kd_ratio : string;
  premium : bool;
  gold_boxes : N;
  group : string;
  turrets : list string;
  hulls : list string;
  is_online : bool
}.

(** Modelled from the spec: the error kinds of section 7, raised by the
    absent fetcher and parser. *)
Inductive FetchError : Type :=
| Timeout
| ConnectionFailed
| HttpStatus (code : Z).

Inductive ParseError : Type :=
| NotFound
| UnrecognizedPage.

(** Modelled from the spec: what happens to the absent facade between two
    suspension points (section 5). One lookup is asked for, or one
    upstream answer arrives: the page, a typed fetch error, or a fault
    raised inside the fetcher. *)
Inductive Event : Type :=
| Call (caller : nat) (username : string)
| Complete (key : string) (upstream : result (string + FetchError)).

Section Service.

(** The ordered rank table is the site's vocabulary (section 9: "external
    data not present in the provided source"). *)
Variable rank_table : list string.

(** The facade's bound on username length and its character set
    (section 4.5 names them without fixing them). *)
Variable max_username_length : nat.
Variable valid_char : ascii -> bool.

(** The HTML parser of section 4.2, [extract(html) -> RawFields |
    ParseError]; a fault raised inside it is [Raise]. *)
Variable extract : string -> result (RawFields + ParseError).

(** Modelled from the spec: the position of a rank text in the table,
    absent from the sources. "Rank text is matched case-insensitively
    against a fixed ordered rank table (lowest to highest)": the first
    entry equal to the text up to case, searched from the lowest rank;
    like [list.index], the search faults on a text that is not there. *)
Fixpoint rank_index (table : list string) (text : string) : result nat :=
  match table with
  | [] => Raise ValueError
  | r :: rest =>
      if String.eqb (lower r) (lower text) then Ok O
      else i ← rank_index rest text; Ok (S i)
  end.

(** Modelled from the spec: rank normalization, absent from the sources.
    Unmatched text "maps to an Unknown sentinel rank rather than
    failing": the fault of the search is caught here. *)
Definition normalize_rank (text : string) : Rank :=
  match rank_index rank_table text with
  | Ok i => Known i
  | Raise _ => Unknown
  end.

(** Modelled from the spec: the "canonical rank label" of a rank, as the
    absent normalizer stores it. *)
Definition rank_label (r : Rank) : string :=
  match r with
  | Known i => default "Unknown" (rank_table !! i)
  | Unknown => "Unknown"
  end.

(** Modelled from the spec: the K/D ratio of section 4.3, absent from the
    sources. "if the page exposes an explicit ratio, parse it as a float
    rounded to 2 decimals; otherwise compute kills / deaths with deaths=0
    treated as deaths=1 for this division only". A ratio text that is not
    an unsigned decimal numeral is a field-level gap and falls back to
    the computed value. *)
Definition computed_ratio (kills deaths : N) : Q :=
  (inject_Z (Z.of_N kills) / inject_Z (Z.of_N (N.max deaths 1)))%Q.

Definition site_ratio (raw : option string) : option Q :=
  text ← raw; unsigned_decimal (strip text).

Definition normalize_kd_ratio (kills deaths : N) (raw : option string) : string :=
  match site_ratio raw with
  | Some q => format_2f q
  | None => format_2f (computed_ratio kills deaths)
  end.

(** Modelled from the spec: [normalize(RawFields) -> PlayerRecord]
    (section 4.3), absent from the sources. *)
Definition normalize (raw : RawFields) : PlayerRecord :=
  let k := normalize_count (raw_kills raw) in
  let d := normalize_count (raw_deaths raw) in
  mkRecord
    (raw_username raw)
    (from_option normalize_rank Unknown (raw_rank raw))
    (normalize_count (raw_experience raw))
    (match raw_max_experience raw with
     | Some text =>
         match parse_count text with Ok n => Some n | Raise _ => None end
     | None => None
     end)
    k d
    (normalize_kd_ratio k d (raw_kd_ratio raw))
    (raw_premium raw)
    (normalize_count (raw_gold_boxes raw))
    (default "" (raw_group raw))
    (raw_turrets raw)
    (raw_hulls raw)
    (raw_is_online raw).

(** Modelled from the spec: the dictionary the absent facade hands to the
    bot, with the scalar entries of a record (the ones the modelled
    handlers read) under the keys the bot looks up. *)
Definition to_dict (r : PlayerRecord) : gmap string pyval :=
  let d : gmap string pyval :=
    <["username" := PyStr (username r)]>
    (<["rank" := PyStr (rank_label (rank r))]>
    (<["experience" := PyInt (Z.of_N (experience r))]>
    (<["kills" := PyInt (Z.of_N (kills r))]>
    (<["deaths" := PyInt (Z.of_N (deaths r))]>
    (<["kd_ratio" := PyStr (kd_ratio r)]>
    (<["premium" := PyBool (premium r)]>
    (<["gold_boxes" := PyInt (Z.of_N (gold_boxes r))]>
    (<["group" := PyStr (group r)]>
    (<["is_online" := PyBool (is_online r)]> ∅))))))))) in
  match max_experience r with
  | Some m => <["max_experience" := PyInt (Z.of_N m)]> d
  | None => d
  end.

(** ** Facade, cache and in-flight table (sections 4.4, 4.5 and 5) *)

(** Modelled from the spec: username validation, absent from the
    sources. "Trims/validates the input username (non-empty, reasonable
    length/character set)"; the argument is the trimmed name. *)
Definition chars_ok (u : string) : bool :=
  forallb valid_char (list_ascii_of_string u).

Definition valid_username (u : string) : bool :=
  negb (String.eqb u "")
  && (String.length u <=? max_username_length)%nat
  && chars_ok u.

(** Modelled from the spec: what the facade makes of an upstream answer.
    Every [FetchError], every [ParseError] and every fault raised inside
    the fetcher or the parser becomes "no record". *)
Definition resolve (upstream : result (string + FetchError))
  : option PlayerRecord :=
  match upstream with
  | Ok (inl html) =>
      match extract html with
      | Ok (inl raw) => Some (normalize raw)
      | Ok (inr _) => None
      | Raise _ => None
      end
  | Ok (inr _) => None
  | Raise _ => None
  end.

(** Modelled from the spec: the state of the absent cache and facade
    between two suspension points: the lookups waiting on
    each in-flight fetch (by cache key, oldest caller first), the keys
    for which an outbound fetch was issued (the fetch-call counter of a
    test double), and the answers handed back to callers. *)
Record Service : Type := mkService {
  inflight : gmap string (list nat);
  fetch_log : list string;
  delivered : list (nat * option PlayerRecord)
}.

Definition idle : Service := mkService ∅ [] [].

Definition deliver (callers : list nat) (answer : option PlayerRecord)
    (s : Service) : Service :=
  mkService (inflight s) (fetch_log s)
            (delivered s ++ map (fun c => (c, answer)) callers).

(** Modelled from the spec: [get_player_data] up to its first suspension
    point. Invalid input "returns None immediately without consuming a
    network call"; a lookup whose key is in flight joins it ("concurrent
    lookups for the same username await the single in-flight fetch");
    otherwise one fetch is issued. "Keys are case-folded usernames". *)
Definition get_player_data (caller : nat) (username : string) (s : Service)
  : Service :=
  let u := strip username in
  if valid_username u then
    let key := lower u in
    match inflight s !! key with
    | Some waiting =>
        mkService (<[key := waiting ++ [caller]]> (inflight s))
                  (fetch_log s) (delivered s)
    | None =>
        mkService (<[key := [caller]]> (inflight s))
                  (fetch_log s ++ [key]) (delivered s)
    end
  else deliver [caller] None s.

(** Modelled from the spec: the in-flight fetch for [key] finishes and
    every lookup waiting on it resumes with the same answer. *)
Definition complete (key : string) (upstream : result (string + FetchError))
    (s : Service) : Service :=
  match inflight s !! key with
  | Some waiting =>
      deliver waiting (resolve upstream)
        (mkService (delete key (inflight s)) (fetch_log s) (delivered s))
  | None => s
  end.

Definition step (s : Service) (e : Event) : Service :=
  match e with
  | Call caller username => get_player_data caller username s
  | Complete key upstream => complete key upstream s
  end.

(** Modelled from the spec: a schedule of the "single-process,
    cooperative asynchronous I/O" loop of section 5. *)
Definition run (s : Service) (schedule : list Event) : Service :=
  fold_left step schedule s.

(** The callers of a schedule whose lookups are keyed by [key], in the
    order of their calls. *)
Fixpoint callers_of (key : string) (schedule : list Event) : list nat :=
  match schedule with
  | [] => []
  | Call caller username :: rest =>
      if valid_username (strip username) && String.eqb (lower (strip username)) key
      then caller :: callers_of key rest
      else callers_of key rest
  | Complete _ _ :: rest => callers_of key rest
  end.

(** The dedup window of [key] is open throughout a schedule when the
    fetch for [key] does not finish inside it. *)
Definition completes (key : string) (e : Event) : bool :=
  match e with
  | Call _ _ => false
  | Complete k _ => String.eqb k key
  end.

Definition window_open (key : string) (schedule : list Event) : bool :=
  forallb (fun e => negb (completes key e)) schedule.

(** Number of outbound fetches issued for [key]. *)
Definition fetches (key : string) (s : Service) : nat :=
  length (filter (fun k => k = key) (fetch_log s)).

(** The waiting list of a key after more callers joined it: they queue
    behind the lookups already waiting, or open the list. *)
Definition joined (waiting : option (list nat)) (callers : list nat)
  : option (list nat) :=
  match waiting, callers with
  | Some w, _ => Some (w ++ callers)
  | None, [] => None
  | None, _ :: _ => Some callers
  end.

(** The fetches these callers cause: one when nothing was in flight. *)
Definition issued (waiting : option (list nat)) (callers : list nat) : nat :=
  match waiting, callers with
  | None, _ :: _ => 1
  | _, _ => 0
  end.

End Service.

End Scraper.

(* ===================================================================== *)
(** * The player card *)
(* ===================================================================== *)

(** ** [re.search(r':(\d+)>', text)] *)

Module Re.

(** [\d] on a text of ASCII characters ([ascii_text] below): the ten digits
    [0-9]. The decimal digits outside ASCII, which [\d] of a [str] pattern
    matches as well, take several bytes each and are not recognised. *)
Definition isdigit (c : ascii) : bool :=
  let n := N_of_ascii c in ((48 <=? n) && (n <=? 57))%N.

(** The longest run of digits a string starts with, and what follows it:
    the greedy [\d+]. *)
Fixpoint span_digits (s : string) : string * string :=
  match s with
  | EmptyString => (EmptyString, EmptyString)
  | String c s' =>
      if isdigit c then let (ds, rest) := span_digits s' in (String c ds, rest)
      else (EmptyString, s)
  end.

(** A match of [(\d+)>] at the start of [s]: the digit run must not be
    empty and a [">"] must follow it; giving back digits cannot help, since
    a digit is not a [">"]. *)
Definition match_id (s : string) : option string :=
  match span_digits s with
  | (String d ds, String ">" _) => Some (String d ds)
  | _ => None
  end.

(** Group 1 of the leftmost match of [:(\d+)>], or [None]. *)
Fixpoint search_id (s : string) : option string :=
  match s with
  | EmptyString => None
  | String c s' =>
      if Ascii.eqb c ":" then
        match match_id s' with
        | Some id => Some id
        | None => search_id s'
        end
      else search_id s'
  end.

(** An occurrence of [:(\d+)>] in [s], right after the prefix [pre], with
    [id] as its group. *)
Definition occurs (s pre id post : string) : Prop :=
  s = pre +:+ String ":" (id +:+ String ">" post)
  /\ id <> ""
  /\ Forall (fun c => isdigit c = true) (list_ascii_of_string id).

End Re.

(** A value of the full player-data dictionary: a scalar, or the dictionary
    of name lists stored under ['equipment']. *)
Inductive entry : Type :=
| Scalar (v : pyval)
| Slots (slots : gmap string (list string)).

(** Truth value of an entry in an [if]. *)
Definition entry_truthy (e : entry) : bool :=
  match e with
  | Scalar PyNone => false
  | Scalar (PyBool b) => b
  | Scalar (PyInt z) => negb (z =? 0)
  | Scalar (PyStr s) => negb (String.eqb s "")
  | Slots slots => bool_decide (slots ≠ ∅)
  end.

(** [player_data[key]] on the full dictionary. *)
Definition entry_of (d : gmap string entry) (key : string) : result entry :=
  match d !! key with
  | Some e => Ok e
  | None => Raise (KeyError key)
  end.

(** [value.get(slot)] on the entry stored under ['equipment']: a missing
    slot is [None], shown here as the empty list, which an [if] treats the
    same way. A scalar has no [get]; that [AttributeError] is carried as a
    [RuntimeError] with its class name. *)
Definition slot_of (e : entry) (slot : string) : result (list string) :=
  match e with
  | Slots slots => Ok (default [] (slots !! slot))
  | Scalar _ => Raise (RuntimeError "AttributeError")
  end.

(** [", ".join(names)] *)
Fixpoint join_comma (names : list string) : string :=
  match names with
  | [] => ""
  | [x] => x
  | x :: rest => x +:+ ", " +:+ join_comma rest
  end.

(** The embed of [/player]: the common part, its link and its thumbnail. *)
Record Card : Type := mkCard {
  card_embed : Embed;
  card_url : string;
  card_thumbnail : option string
}.

Definition card_add_field (f : EmbedField) (c : Card) : Card :=
  mkCard (add_field f (card_embed c)) (card_url c) (card_thumbnail c).

Section PlayerCard.

(** [utils.get_rank_emoji] and [utils.format_exact_number] on entries, the
    constants of [config], and the text Python prints for a dictionary
    placed in an f-string. *)
Variable get_rank_emoji : entry -> result string.
Variable format_exact_number : entry -> result string.
Variable RTANKS_BASE_URL : string.
Variable PREMIUM_EMOJI : string.
Variable GOLD_BOX_EMOJI : string.
Variable repr_slots : gmap string (list string) -> string.

(** [f"{value}"] *)
Definition entry_str (e : entry) : string :=
  match e with
  | Scalar v => str_of v
  | Slots slots => repr_slots slots
  end.

(** Lines 302-308: the thumbnail taken from the rank emoji. *)
Definition emoji_thumbnail (rank_emoji : string) : option string :=
  match Re.search_id rank_emoji with
  | Some emoji_id =>
      Some ("https://cdn.discordapp.com/emojis/" +:+ emoji_id +:+ ".png")
  | None => None
  end.

(** Lines 317-321: [current/max] when the record carries a non-zero
    ['max_experience'], the current experience alone otherwise. *)
Definition exp_display (player_data : gmap string entry) : result string :=
  match player_data !! "max_experience" with
  | Some m =>
      if entry_truthy m then
        cur ← entry_of player_data "experience";
        f1 ← format_exact_number cur;
        f2 ← format_exact_number m;
        Ok (f1 +:+ "/" +:+ f2)
      else
        cur ← entry_of player_data "experience";
        format_exact_number cur
  | None =>
      cur ← entry_of player_data "experience";
      format_exact_number cur
  end.

(** Lines 337-342. *)
Definition combat_stats (player_data : gmap string entry) : result string :=
  kills ← entry_of player_data "kills";
  k ← format_exact_number kills;
  deaths ← entry_of player_data "deaths";
  d ← format_exact_number deaths;
  kd ← entry_of player_data "kd_ratio";
  Ok ("**Kills:** " +:+ k +:+ nl
      +:+ "**Deaths:** " +:+ d +:+ nl
      +:+ "**K/D:** " +:+ entry_str kd).

(** Lines 349-353. *)
Definition other_stats (player_data : gmap string entry) : result string :=
  gold ← entry_of player_data "gold_boxes";
  grp ← entry_of player_data "group";
  Ok (GOLD_BOX_EMOJI +:+ " **Gold Boxes:** " +:+ entry_str gold +:+ nl
      +:+ "**Group:** " +:+ entry_str grp).

(** Lines 362-370: the text of the equipment field, for a true
    ['equipment'] entry. *)
Definition equipment_text (equipment : entry) : result string :=
  turrets ← slot_of equipment "turrets";
  let text :=
    match turrets with
    | [] => ""
    | _ :: _ => "**Turrets:** " +:+ join_comma turrets +:+ nl
    end in
  hulls ← slot_of equipment "hulls";
  Ok (match hulls with
      | [] => text
      | _ :: _ => text +:+ "**Hulls:** " +:+ join_comma hulls
      end).

Definition _create_player_embed (player_data : gmap string entry) (now : Q)
  : result Card :=
  online ← entry_of player_data "is_online";
  let activity_status := if entry_truthy online then "Online" else "Offline" in
  name ← entry_of player_data "username";
  let profile_url := RTANKS_BASE_URL +:+ "/user/" +:+ entry_str name in
  let embed :=
    mkCard
      (mkEmbed (entry_str name)
         (Some ("**Activity:** " +:+ activity_status))
         (if entry_truthy online then 0x00ff00 else 0x808080)
         (Some now) [] None)
      profile_url None in
  rank ← entry_of player_data "rank";
  rank_emoji ← get_rank_emoji rank;
  let embed :=
    mkCard (card_embed embed) (card_url embed)
      (match emoji_thumbnail rank_emoji with
       | Some emoji_url => Some emoji_url
       | None => card_thumbnail embed
       end) in
  let embed :=
    card_add_field (mkField "Rank" ("**" +:+ entry_str rank +:+ "**") true) embed in
  exp ← exp_display player_data;
  let embed := card_add_field (mkField "Experience" exp true) embed in
  premium ← entry_of player_data "premium";
  let premium_status := if entry_truthy premium then "Yes" else "No" in
  let embed :=
    card_add_field
      (mkField "Premium" (PREMIUM_EMOJI +:+ " " +:+ premium_status) true) embed in
  combat ← combat_stats player_data;
  let embed := card_add_field (mkField "Combat Stats" combat true) embed in
  other ← other_stats player_data;
  let embed := card_add_field (mkField "Other Stats" other true) embed in
  equipment ← entry_of player_data "equipment";
  embed ←
    (if entry_truthy equipment then
       text ← equipment_text equipment;
       Ok (if String.eqb text "" then embed
           else card_add_field (mkField "Equipment" text false) embed)
     else Ok embed);
  Ok (mkCard (set_footer "Data from ratings.ranked-rtanks.online" None (card_embed embed))
             (card_url embed) (card_thumbnail embed)).

End PlayerCard.

(* ===================================================================== *)
(** * Bookkeeping of the counters *)
(* ===================================================================== *)

(** How one invocation accounts for its scrapes: either it records only
    failures (at most two) and leaves the scraping time alone, or it
    records only successes (one or two) and adds the measured duration. *)
Definition accounted (duration : Q) (w w' : World) : Prop :=
  commands_processed w' = commands_processed w + 1
  /\ ((scraping_successes w' = scraping_successes w
       /\ scraping_failures w <= scraping_failures w' <= scraping_failures w + 2
       /\ total_scraping_time w' = total_scraping_time w)
      \/ (scraping_failures w' = scraping_failures w
          /\ scraping_successes w < scraping_successes w' <= scraping_successes w + 2
          /\ total_scraping_time w' = (total_scraping_time w + duration)%Q)).

(** What holds of the counters of a running bot. *)
Definition healthy (w : World) : Prop :=
  0 <= commands_processed w
  /\ 0 <= scraping_successes w
  /\ 0 <= scraping_failures w
  /\ scraping_successes w + scraping_failures w <= 2 * commands_processed w
  /\ (scraping_successes w = 0 -> (total_scraping_time w == 0)%Q).

(** The usernames a handler passes to the scraper. *)
Definition lookups_of (i : Interaction) : list string :=
  match i with
  | PlayerCommand username _ => [strip username]
  | CompareCommand player1 player2 _ =>
      if String.eqb (lower (strip player1)) (lower (strip player2)) then []
      else [strip player1; strip player2]
  | BotstatsCommand _ => []
  end.

(** Everything one invocation does to the bot: the start time is kept, the
    scrapes are accounted, one reply is sent and the scraper is called for
    the names of [lookups_of]. *)
Definition effect (i : Interaction) (w w' : World) : Prop :=
  start_time w' = start_time w
  /\ accounted (elapsed i) w w'
  /\ (exists reply, sent w' = sent w ++ [reply])
  /\ lookups w' = lookups w ++ lookups_of i.

(* ===================================================================== *)
(** * Sample records *)
(* ===================================================================== *)

(** Two records on which the renderers are exercised: a complete one, as
    the full dictionary and as its scalar part, and a second player. *)
Definition alpha_record : gmap string entry :=
  <["is_online" := Scalar (PyBool true)]>
  (<["username" := Scalar (PyStr "Alpha")]>
  (<["rank" := Scalar (PyStr "Sergeant")]>
  (<["experience" := Scalar (PyInt 105613)]>
  (<["max_experience" := Scalar (PyInt 125000)]>
  (<["premium" := Scalar (PyBool true)]>
  (<["kills" := Scalar (PyInt 500)]>
  (<["deaths" := Scalar (PyInt 250)]>
  (<["kd_ratio" := Scalar (PyStr "2.00")]>
  (<["gold_boxes" := Scalar (PyInt 12)]>
  (<["group" := Scalar (PyStr "")]>
  (<["equipment" :=
       Slots (<["turrets" := ["Smoky M2"; "Twins"]]> (<["hulls" := ["Hornet"]]> ∅))]>
   ∅))))))))))).

Definition alpha_scalars : gmap string pyval :=
  <["username" := PyStr "Alpha"]>
  (<["rank" := PyStr "Sergeant"]>
  (<["experience" := PyInt 105613]>
  (<["kills" := PyInt 500]>
  (<["deaths" := PyInt 250]>
  (<["kd_ratio" := PyStr "2.00"]>
  (<["gold_boxes" := PyInt 12]> ∅)))))).

Definition beta_scalars : gmap string pyval :=
  <["username" := PyStr "Beta"]>
  (<["rank" := PyStr "Recruit"]>
  (<["kd_ratio" := PyStr "0.50"]> ∅)).

(** Stand-ins for the helpers of [utils]: numbers are printed plainly and
    every rank has the same custom emoji. *)
Definition plain_number (v : pyval) : result string := Ok (str_of v).

Definition plain_entry (e : entry) : result string :=
  match e with
  | Scalar v => Ok (str_of v)
  | Slots _ => Raise TypeError
  end.

Definition sergeant_emoji (rank : entry) : result string := Ok "<:sergeant:123456>".

(* ===================================================================== *)
(** * Interrupted awaits and the runtime's string methods *)
(* ===================================================================== *)

(** The handlers of Section [Handlers] are the handlers as they run while
    every awaited call returns or raises an instance of [Exception], with
    [str.strip] and [str.lower] on ASCII text. This module lifts both
    limits. An awaited call may also raise an exception that is not an
    instance of [Exception], as an [asyncio.CancelledError] is: the
    [except Exception] clauses (lines 97, 188 and 503) do not catch it, and
    [isinstance(x, Exception)] (lines 143 and 146) is false of it. And
    [str.strip] and [str.lower], whose Unicode tables belong to the Python
    runtime, are parameters of the handlers. *)
Module General.

(** The exception classes that derive from [BaseException] only. *)
Inductive base_exn : Type :=
| CancelledError
| KeyboardInterrupt
| SystemExit.

(** Whatever a call may raise. *)
Inductive raised : Type :=
| AnException (e : exn)
| ABaseException (b : base_exn).

(** [isinstance(x, Exception)] of a raised object. *)
Definition is_exception (r : raised) : bool :=
  match r with
  | AnException _ => true
  | ABaseException _ => false
  end.

(** The course of a call: it returns or it raises. *)
Inductive outcome (A : Type) : Type :=
| Returned (a : A)
| Raised (r : raised).
Arguments Returned {A} a.
Arguments Raised {A} r.

Definition of_result {A} (r : result A) : outcome A :=
  match r with
  | Ok a => Returned a
  | Raise e => Raised (AnException e)
  end.

(** A coroutine of the bot: the state-and-exception monad [M] with the
    wider range of exceptions. *)
Definition Task (A : Type) : Type := World -> outcome A * World.

Definition treturn {A} (a : A) : Task A := fun w => (Returned a, w).

Definition tbind {A B} (m : Task A) (k : A -> Task B) : Task B :=
  fun w =>
    match m w with
    | (Returned a, w') => k a w'
    | (Raised r, w') => (Raised r, w')
    end.

(** [try: body except Exception as e: handler e]: an exception that is not
    an instance of [Exception] passes through. *)
Definition try_except_exception {A} (body : Task A) (handler : exn -> Task A)
  : Task A :=
  fun w =>
    match body w with
    | (Returned a, w') => (Returned a, w')
    | (Raised (AnException e), w') => handler e w'
    | (Raised (ABaseException b), w') => (Raised (ABaseException b), w')
    end.

(** A pure computation, which raises instances of [Exception] only. *)
Definition pure {A} (r : result A) : Task A := fun w => (of_result r, w).

(** An awaited call with a given course. *)
Definition await {A} (course : outcome A) : Task A := fun w => (course, w).

(** An action on the bot object or on the interaction, as in [M]. *)
Definition perform {A} (m : M A) : Task A :=
  fun w => (of_result (fst (m w)), snd (m w)).

(** The result of a run of [M] read as the result of a [Task]. *)
Definition of_run {A} (p : result A * World) : outcome A * World :=
  (of_result (fst p), snd p).

#[global] Instance Task_ret : MRet Task := @treturn.
#[global] Instance Task_bind : MBind Task := fun A B k m => tbind m k.

(** What a task wrapped by [asyncio.gather] does with the exception its
    coroutine raised: a [KeyboardInterrupt] or a [SystemExit] is raised
    again into the event loop, which stops, so that the handler does not
    get past its [await]; anything else, a [CancelledError] included, is
    kept and handed back as the task's result. *)
Definition stops_event_loop {A} (x : outcome A) : option base_exn :=
  match x with
  | Raised (ABaseException KeyboardInterrupt) => Some KeyboardInterrupt
  | Raised (ABaseException SystemExit) => Some SystemExit
  | _ => None
  end.

(** One slash-command interaction, with what the handler will read; for
    [/botstats] the course of the website probe is given apart from the
    environment, as it may be interrupted. *)
Inductive Interaction : Type :=
| PlayerCommand (username : string) (clk : Clock)
| CompareCommand (player1 player2 : string) (clk : Clock)
| BotstatsCommand (env : BotEnv) (response : outcome (Z * Q)).

(** As in Section [Handlers], [interaction.response.defer()],
    [interaction.followup.send] and the [logger] calls are taken to
    succeed; and the task that runs a handler is not itself cancelled
    while it awaits them or [asyncio.gather]. *)
Section Handlers.

(** [str.strip] and [str.lower] of the Python runtime. *)
Variable strip : string -> string.
Variable lower : string -> string.

(** [self.scraper.get_player_data]: a call returns a dictionary or [None],
    or raises anything. *)
Variable get_player_data : string -> outcome (option (gmap string pyval)).

Variable format_exact_number : pyval -> result string.
Variable GOLD_BOX_EMOJI : string.
Variable _create_player_embed : gmap string pyval -> Q -> result Embed.

(** [await self.scraper.get_player_data(username)]: the call is logged
    and whatever the scraper raises propagates to the caller. *)
Definition await_get_player_data (username : string)
  : Task (option (gmap string pyval)) :=
  fun w =>
    (get_player_data username,
     mkWorld (start_time w) (commands_processed w) (scraping_successes w)
             (scraping_failures w) (total_scraping_time w)
             (sent w) (lookups w ++ [username])).

(** Lines 137-140: both calls are made, then
    [await asyncio.gather(..., return_exceptions=True)] gives what each
    call returned or the object it raised. When a call stops the event
    loop the invocation is over with nothing more done; it is recorded as
    ended by that exception. *)
Definition gather (player1 player2 : string)
  : Task (outcome (option (gmap string pyval))
          * outcome (option (gmap string pyval))) :=
  fun w =>
    let r1 := get_player_data player1 in
    let r2 := get_player_data player2 in
    (match stops_event_loop r1, stops_event_loop r2 with
     | Some b, _ => Raised (ABaseException b)
     | None, Some b => Raised (ABaseException b)
     | None, None => Returned (r1, r2)
     end,
     mkWorld (start_time w) (commands_processed w) (scraping_successes w)
             (scraping_failures w) (total_scraping_time w)
             (sent w) (lookups w ++ [player1; player2])).

(** ** [/player] (lines 67-106) *)

Definition player_command_handler (username : string) (clk : Clock) : Task unit :=
  perform incr_commands_processed ;;
  try_except_exception
    (player_data ← await_get_player_data (strip username);
     match found player_data with
     | None =>
         perform (send (player_not_found_embed username)) ;;
         perform (add_scraping_failures 1)
     | Some data =>
         embed ← pure (_create_player_embed data (datetime_now clk));
         perform (send embed) ;;
         perform (add_total_scraping_time (time_end clk - time_start clk)) ;;
         perform (add_scraping_successes 1)
     end)
    (fun e =>
       perform (send player_error_embed) ;;
       perform (add_scraping_failures 1)).

(** ** [/compare] (lines 112-197) *)

(** Lines 143-148: a result of [gather] that is an instance of [Exception]
    is replaced by [None]; any other result is kept, an exception object
    that is not an [Exception] included. *)
Definition exception_to_none (x : outcome (option (gmap string pyval)))
  : outcome (option (gmap string pyval)) :=
  match x with
  | Returned data => Returned data
  | Raised r => if is_exception r then Returned None else Raised r
  end.

(** Truth value of a result of [gather] in [if not player_data]: that of
    the value returned; an exception object is true. *)
Definition truth (x : outcome (option (gmap string pyval))) : bool :=
  match x with
  | Returned data => truthy data
  | Raised _ => true
  end.

(** [_create_comparison_embed] on two results of [gather]. It starts with
    [player1_data['username']] and [player2_data['username']] (lines
    385-386): subscripting an exception object raises [TypeError]. *)
Definition _create_comparison_embed
    (player1_data player2_data : outcome (option (gmap string pyval))) (now : Q)
  : result Embed :=
  match player1_data, player2_data with
  | Returned (Some data1), Returned (Some data2) =>
      _create_comparison_embed format_exact_number GOLD_BOX_EMOJI data1 data2 now
  | Returned (Some data1), _ =>
      _ ← getitem data1 "username";
      Raise TypeError
  | _, _ => Raise TypeError
  end.

Definition compare_command_handler (player1 player2 : string) (clk : Clock)
  : Task unit :=
  perform incr_commands_processed ;;
  try_except_exception
    (let player1 := strip player1 in
     let player2 := strip player2 in
     if String.eqb (lower player1) (lower player2) then
       perform (send invalid_comparison_embed)
     else
       r ← gather player1 player2;
       let player1_data := exception_to_none (fst r) in
       let player2_data := exception_to_none (snd r) in
       if negb (truth player1_data) && negb (truth player2_data) then
         perform (send (players_not_found_embed player1 player2)) ;;
         perform (add_scraping_failures 2)
       else if negb (truth player1_data) then
         perform (send (compare_not_found_embed player1)) ;;
         perform (add_scraping_failures 1)
       else if negb (truth player2_data) then
         perform (send (compare_not_found_embed player2)) ;;
         perform (add_scraping_failures 1)
       else
         embed ← pure (_create_comparison_embed player1_data player2_data
                         (datetime_now clk));
         perform (send embed) ;;
         perform (add_total_scraping_time (time_end clk - time_start clk)) ;;
         perform (add_scraping_successes 2))
    (fun e =>
       perform (send compare_error_embed) ;;
       perform (add_scraping_failures 1)).

(** ** [_check_website_status] (lines 491-504) *)

Variable format_duration : Q -> string.
Variable format_number : Z -> string.
Variable str_of_float : Q -> string.

(** [response] is the course of the awaited [session.get]: the status
    with [time.time()] on arrival, or what was raised inside the
    [async with] blocks. *)
Definition _check_website_status (start : Q) (response : outcome (Z * Q))
  : Task string :=
  try_except_exception
    (r ← await response;
     let response_time := round ((snd r - start) * 1000) 2 in
     if fst r =? 200 then
       mret ("🟢 Online (" +:+ str_of_float response_time +:+ "ms)")
     else
       mret ("🟡 Partial (" +:+ str_of_Z (fst r) +:+ ")"))
    (fun _ => mret "🔴 Offline").

(** ** [/botstats] (lines 199-284) *)

(** The course of the probe is [response]; the field [probe_response] of
    [env] is not read. *)
Definition botstats_command_handler (env : BotEnv) (response : outcome (Z * Q))
  : Task unit :=
  perform incr_commands_processed ;;
  self ← perform get_world;
  avg ← pure (avg_scraping_latency self);
  rate ← pure (success_rate self);
  website_status ← _check_website_status (probe_start env) response;
  perform (send (botstats_embed format_duration format_number str_of_float
                   env self avg rate website_status)).

Definition dispatch (i : Interaction) : Task unit :=
  match i with
  | PlayerCommand username clk => player_command_handler username clk
  | CompareCommand player1 player2 clk =>
      compare_command_handler player1 player2 clk
  | BotstatsCommand env response => botstats_command_handler env response
  end.

(** The exception, not an instance of [Exception], that ends the handler
    of an interaction, if there is one: what the lookup of [/player] or
    the probe of [/botstats] raised into the handler, and for the two
    lookups of a [/compare] what stops the event loop. *)
Definition interruption (i : Interaction) : option base_exn :=
  match i with
  | PlayerCommand username _ =>
      match get_player_data (strip username) with
      | Raised (ABaseException b) => Some b
      | _ => None
      end
  | CompareCommand player1 player2 _ =>
      if String.eqb (lower (strip player1)) (lower (strip player2)) then None
      else
        match stops_event_loop (get_player_data (strip player1)) with
        | Some b => Some b
        | None => stops_event_loop (get_player_data (strip player2))
        end
  | BotstatsCommand _ response =>
      match response with
      | Raised (ABaseException b) => Some b
      | _ => None
      end
  end.

(** How the handler of an interaction ends: normally, or by the
    exception that interrupts it. *)
Definition ending (i : Interaction) : outcome unit :=
  match interruption i with
  | None => Returned tt
  | Some b => Raised (ABaseException b)
  end.

End Handlers.

(** A scraper whose [Exception]s have already degraded to [None]. *)
Definition degraded (scraper : string -> outcome (option (gmap string pyval)))
  : string -> outcome (option (gmap string pyval)) :=
  fun username => exception_to_none (scraper username).

(** The number of players of a comparison counted as not found. *)
Definition missing (r1 r2 : outcome (option (gmap string pyval))) : Z :=
  Z.b2z (negb (truth (exception_to_none r1)))
  + Z.b2z (negb (truth (exception_to_none r2))).

End General.

(** A text of ASCII characters only: on such a text [\d] of a [str]
    pattern matches the ten digits [0-9] and nothing else. *)
Definition ascii_text (s : string) : Prop :=
  Forall (fun c => (N_of_ascii c < 128)%N) (list_ascii_of_string s).

(* ===================================================================== *)
(** * Properties of the command handlers *)
(* ===================================================================== *)

(** Unfolds the monadic plumbing of a handler. *)
Ltac run_monad :=
  unfold try_except, lift, send, incr_commands_processed, add_scraping_failures,
    add_scraping_successes, add_total_scraping_time, get_world,
    mbind, M_bind, bind, mret, M_ret, ret in *;
  simpl in *.

Lemma truediv_pos (a : Q) (n : Z) :
  0 < n -> truediv a (inject_Z n) = Ok (a / inject_Z n)%Q.
Proof.
  intros Hn. unfold truediv.
  destruct (Qeq_bool (inject_Z n) 0) eqn:E; [|reflexivity].
  apply Qeq_bool_iff in E. unfold Qeq in E. simpl in E. lia.
Qed.

Lemma avg_scraping_latency_ok (w : World) :
  exists avg, avg_scraping_latency w = Ok avg
              /\ (scraping_successes w = 0 -> avg = NInt 0).
Proof.
  unfold avg_scraping_latency.
  destruct (0 <? scraping_successes w) eqn:E.
  - apply Z.ltb_lt in E. rewrite (truediv_pos _ _ E). simpl.
    eexists. split; [reflexivity|]. lia.
  - eauto.
Qed.

Lemma success_rate_ok (w : World) :
  exists rate, success_rate w = Ok rate
               /\ (scraping_successes w + scraping_failures w = 0 -> rate = NInt 0).
Proof.
  unfold success_rate.
  destruct (0 <? scraping_successes w + scraping_failures w) eqn:E.
  - apply Z.ltb_lt in E. rewrite (truediv_pos _ _ E). simpl.
    eexists. split; [reflexivity|]. lia.
  - eauto.
Qed.

Lemma check_website_status_returns
    (str_of_float : Q -> string) (start : Q) (response : result (Z * Q)) (w : World) :
  exists s, _check_website_status str_of_float start response w = (Ok s, w).
Proof.
  unfold _check_website_status. run_monad.
  destruct response as [[status arrived]|e]; simpl; [|eauto].
  destruct (status =? 200); eauto.
Qed.

Example website_status_samples :
  let shown := fun _ : Q => "12.5" in
  fst (_check_website_status shown 0 (Ok (200, 1 # 80)) (init 0)) = Ok "🟢 Online (12.5ms)"
  /\ fst (_check_website_status shown 0 (Ok (503, 1 # 80)) (init 0)) = Ok "🟡 Partial (503)"
  /\ fst (_check_website_status shown 0 (Raise (RuntimeError "timeout")) (init 0))
     = Ok "🔴 Offline"
  /\ round ((1 # 80) * 1000) 2 = (1250 # 100)%Q.
Proof. repeat split. Qed.

(** C9. The [/botstats] handler never divides by zero: for every state of
    the counters it replies with the statistics embed and raises nothing;
    the average latency shown is the integer 0 when there was no
    successful scrape, and the success rate shown is the integer 0 when
    there was no scrape at all. *)
Theorem botstats_never_divides_by_zero
    (format_duration : Q -> string) (format_number : Z -> string)
    (str_of_float : Q -> string) (env : BotEnv) (w : World) :
  exists avg rate status w',
    botstats_command_handler format_duration format_number str_of_float env w
      = (Ok tt, w')
    /\ avg_scraping_latency w = Ok avg
    /\ success_rate w = Ok rate
    /\ sent w' = sent w ++
         [botstats_embed format_duration format_number str_of_float env
            (snd (incr_commands_processed w)) avg rate status]
    /\ (scraping_successes w = 0 ->
        avg = NInt 0 /\ str_of_num str_of_float avg = "0")
    /\ (scraping_successes w + scraping_failures w = 0 ->
        rate = NInt 0 /\ str_of_num str_of_float rate = "0").
Proof.
  destruct (avg_scraping_latency_ok w) as (avg & Havg & Havg0).
  destruct (success_rate_ok w) as (rate & Hrate & Hrate0).
  destruct (check_website_status_returns str_of_float (probe_start env)
              (probe_response env) (snd (incr_commands_processed w)))
    as (status & Hstatus).
  exists avg, rate, status.
  eexists. split; [|split; [exact Havg|split; [exact Hrate|]]].
  - unfold botstats_command_handler.
    unfold mbind at 1, M_bind at 1, bind at 1. simpl.
    unfold mbind at 1, M_bind at 1, bind at 1. simpl.
    unfold avg_scraping_latency, success_rate in *. simpl.
    unfold mbind at 1, M_bind at 1, bind at 1, lift at 1. rewrite Havg.
    unfold mbind at 1, M_bind at 1, bind at 1, lift at 1. rewrite Hrate.
    unfold mbind at 1, M_bind at 1, bind at 1. simpl in Hstatus. rewrite Hstatus.
    reflexivity.
  - simpl. split; [reflexivity|].
    split; intros H0.
    + rewrite (Havg0 H0). auto.
    + rewrite (Hrate0 H0). auto.
Qed.

Lemma botstats_never_divides_by_zero_witness :
  exists avg rate,
    avg_scraping_latency (init 0) = Ok avg
    /\ success_rate (init 0) = Ok rate
    /\ scraping_successes (init 0) = 0
    /\ scraping_successes (init 0) + scraping_failures (init 0) = 0
    /\ avg = NInt 0 /\ rate = NInt 0.
Proof.
  destruct (botstats_never_divides_by_zero (fun _ => "") (fun _ => "") (fun _ => "")
              (mkBotEnv 0 0 0 0 0 0 None 0 (Raise (RuntimeError "down"))) (init 0))
    as (avg & rate & status & w' & _ & Havg & Hrate & _ & Havg0 & Hrate0).
  assert (H1 : scraping_successes (init 0) = 0) by reflexivity.
  assert (H2 : scraping_successes (init 0) + scraping_failures (init 0) = 0) by reflexivity.
  exists avg, rate.
  split; [exact Havg|]. split; [exact Hrate|].
  split; [exact H1|]. split; [exact H2|].
  split; [exact (proj1 (Havg0 H1)) | exact (proj1 (Hrate0 H2))].
Defined.

Section HandlerFacts.

Variable scraper : string -> result (option (gmap string pyval)).
Variable format_exact_number : pyval -> result string.
Variable GOLD_BOX_EMOJI : string.
Variable render_player : gmap string pyval -> Q -> result Embed.
Variable format_duration : Q -> string.
Variable format_number : Z -> string.
Variable str_of_float : Q -> string.

#[local] Abbreviation player := (player_command_handler scraper render_player).
#[local] Abbreviation compare := (compare_command_handler scraper format_exact_number GOLD_BOX_EMOJI).
#[local] Abbreviation botstats := (botstats_command_handler format_duration format_number str_of_float).

Lemma player_returns username clk w :
  exists w', player username clk w = (Ok tt, w')
             /\ counters_step (time_end clk - time_start clk) w w'
             /\ lookups w' = lookups w ++ [strip username].
Proof.
  unfold player_command_handler, await_get_player_data, counters_step. run_monad.
  destruct (scraper (strip username)) as [data|e]; simpl.
  - destruct (found data) as [d|]; simpl.
    + destruct (render_player d (datetime_now clk)); simpl;
        eexists; (split; [reflexivity|]); simpl;
        repeat split; try lia; (left; reflexivity) || (right; reflexivity).
    + eexists; (split; [reflexivity|]); simpl;
        repeat split; try lia; left; reflexivity.
  - eexists; (split; [reflexivity|]); simpl;
      repeat split; try lia; left; reflexivity.
Qed.

Lemma compare_returns player1 player2 clk w :
  exists w', compare player1 player2 clk w = (Ok tt, w')
             /\ counters_step (time_end clk - time_start clk) w w'.
Proof.
  unfold compare_command_handler, gather_task, counters_step. run_monad.
  destruct (String.eqb (lower (strip player1)) (lower (strip player2))); simpl.
  - eexists; (split; [reflexivity|]); simpl;
      repeat split; try lia; left; reflexivity.
  - destruct (found (exception_to_none (scraper (strip player1)))) as [d1|],
             (found (exception_to_none (scraper (strip player2)))) as [d2|]; simpl;
      try (eexists; (split; [reflexivity|]); simpl;
           repeat split; try lia; left; reflexivity).
    destruct (_create_comparison_embed format_exact_number GOLD_BOX_EMOJI
                d1 d2 (datetime_now clk)); simpl;
      eexists; (split; [reflexivity|]); simpl;
      repeat split; try lia; (left; reflexivity) || (right; reflexivity).
Qed.

Lemma botstats_returns env w :
  exists w', botstats env w = (Ok tt, w')
             /\ counters_step 0 w w'.
Proof.
  destruct (avg_scraping_latency_ok w) as (avg & Havg & _).
  destruct (success_rate_ok w) as (rate & Hrate & _).
  destruct (check_website_status_returns str_of_float (probe_start env)
              (probe_response env) (snd (incr_commands_processed w)))
    as (status & Hstatus).
  unfold botstats_command_handler.
  unfold mbind at 1, M_bind at 1, bind at 1. simpl.
  unfold mbind at 1, M_bind at 1, bind at 1. simpl.
  unfold avg_scraping_latency, success_rate in *. simpl.
  unfold mbind at 1, M_bind at 1, bind at 1, lift at 1. rewrite Havg.
  unfold mbind at 1, M_bind at 1, bind at 1, lift at 1. rewrite Hrate.
  unfold mbind at 1, M_bind at 1, bind at 1. simpl in Hstatus. rewrite Hstatus.
  eexists. split; [reflexivity|].
  unfold counters_step. simpl. repeat split; try lia. left; reflexivity.
Qed.

Lemma dispatch_returns i w :
  exists w',
    dispatch scraper format_exact_number GOLD_BOX_EMOJI render_player
      format_duration format_number str_of_float i w = (Ok tt, w')
    /\ counters_step (elapsed i) w w'.
Proof.
  destruct i as [username clk|player1 player2 clk|env]; simpl.
  - destruct (player_returns username clk w) as (w' & H & Hc & _); eauto.
  - apply compare_returns.
  - apply botstats_returns.
Qed.

(** Over any run of interactions whose measured durations are not
    negative, the command counter counts the interactions and the other
    three counters only grow. *)
Lemma serve_counters todo : forall w,
  Forall (fun i => (0 <= elapsed i)%Q) todo ->
  let w' := serve scraper format_exact_number GOLD_BOX_EMOJI render_player
              format_duration format_number str_of_float w todo in
  commands_processed w' = commands_processed w + Z.of_nat (length todo)
  /\ scraping_successes w <= scraping_successes w'
  /\ scraping_failures w <= scraping_failures w'
  /\ (total_scraping_time w <= total_scraping_time w')%Q.
Proof.
  induction todo as [|i todo IH]; intros w Hclock.
  - simpl. repeat split; try lia. lra.
  - inversion Hclock as [|? ? Hi Hrest]; subst.
    destruct (dispatch_returns i w) as (w1 & Hrun & Hcmd & Hs & Hf & Ht).
    destruct (IH w1 Hrest) as (Hcmd' & Hs' & Hf' & Ht').
    unfold serve in *. simpl. rewrite Hrun. simpl.
    repeat split; try lia.
    destruct Ht as [Ht|Ht]; rewrite Ht in Ht'; lra.
Qed.

End HandlerFacts.






(* ===================================================================== *)
(** * Properties of the handlers under interruption *)
(* ===================================================================== *)

(** Unfolds the plumbing of a [General.Task]. *)
Ltac run_task :=
  unfold General.try_except_exception, General.pure, General.await,
    General.perform, General.of_run,
    send, incr_commands_processed, add_scraping_failures,
    add_scraping_successes, add_total_scraping_time, get_world,
    mbind, General.Task_bind, General.tbind,
    mret, General.Task_ret, General.treturn in *;
  simpl in *.

Module GeneralFacts.

#[local] Abbreviation outcome := General.outcome.
#[local] Abbreviation Returned := General.Returned.
#[local] Abbreviation Raised := General.Raised.
#[local] Abbreviation AnException := General.AnException.
#[local] Abbreviation ABaseException := General.ABaseException.
#[local] Abbreviation of_result := General.of_result.
#[local] Abbreviation of_run := General.of_run.

Section Agreement.

Variable scraper : string -> result (option (gmap string pyval)).
Variable format_exact_number : pyval -> result string.
Variable GOLD_BOX_EMOJI : string.
Variable render_player : gmap string pyval -> Q -> result Embed.
Variable format_duration : Q -> string.
Variable format_number : Z -> string.
Variable str_of_float : Q -> string.

(** With the ASCII [strip] and [lower] and a scraper that returns or raises
    an [Exception], the general handlers run as the handlers of [M]. *)
Lemma player_agrees username clk w :
  General.player_command_handler Py.strip (fun u => of_result (scraper u))
    render_player username clk w
  = of_run (player_command_handler scraper render_player username clk w).
Proof.
  unfold General.player_command_handler, General.await_get_player_data,
    player_command_handler, await_get_player_data.
  run_task. run_monad.
  destruct (scraper (strip username)) as [data|e]; simpl; [|reflexivity].
  destruct (found data) as [d|]; simpl; [|reflexivity].
  destruct (render_player d (datetime_now clk)); reflexivity.
Qed.

Lemma compare_agrees player1 player2 clk w :
  General.compare_command_handler Py.strip Py.lower (fun u => of_result (scraper u))
    format_exact_number GOLD_BOX_EMOJI player1 player2 clk w
  = of_run (compare_command_handler scraper format_exact_number GOLD_BOX_EMOJI
              player1 player2 clk w).
Proof.
  unfold General.compare_command_handler, General.gather,
    compare_command_handler, gather_task.
  run_task. run_monad.
  destruct (String.eqb (lower (strip player1)) (lower (strip player2)));
    [reflexivity|]. simpl.
  rewrite <- app_assoc. simpl.
  destruct (scraper (strip player1)) as [[d1|]|e1],
           (scraper (strip player2)) as [[d2|]|e2]; simpl; unfold found; simpl;
    try reflexivity;
    repeat match goal with
           | |- context [bool_decide ?P] => destruct (bool_decide P); simpl
           end;
    try reflexivity;
    destruct (_create_comparison_embed format_exact_number GOLD_BOX_EMOJI
                d1 d2 (datetime_now clk)); reflexivity.
Qed.

Lemma botstats_agrees env w :
  General.botstats_command_handler format_duration format_number str_of_float
    env (of_result (probe_response env)) w
  = of_run (botstats_command_handler format_duration format_number str_of_float env w).
Proof.
  destruct (avg_scraping_latency_ok (snd (incr_commands_processed w)))
    as (avg & Havg & _).
  destruct (success_rate_ok (snd (incr_commands_processed w)))
    as (rate & Hrate & _).
  unfold General.botstats_command_handler, botstats_command_handler.
  unfold General._check_website_status, _check_website_status.
  run_task. run_monad.
  rewrite Havg, Hrate. simpl.
  destruct (probe_response env) as [[status arrived]|e]; simpl; [|reflexivity].
  destruct (status =? 200); reflexivity.
Qed.

End Agreement.

End GeneralFacts.

Module GeneralLaws.

#[local] Abbreviation outcome := General.outcome.
#[local] Abbreviation Returned := General.Returned.
#[local] Abbreviation Raised := General.Raised.
#[local] Abbreviation AnException := General.AnException.
#[local] Abbreviation ABaseException := General.ABaseException.

Lemma stops_event_loop_degraded (x : outcome (option (gmap string pyval))) :
  General.stops_event_loop (General.exception_to_none x) = General.stops_event_loop x.
Proof. by destruct x as [d|[e|[]]]. Qed.

Lemma exception_to_none_idempotent (x : outcome (option (gmap string pyval))) :
  General.exception_to_none (General.exception_to_none x) = General.exception_to_none x.
Proof. by destruct x as [d|[e|b]]. Qed.

Section Courses.

Variable strip : string -> string.
Variable lower : string -> string.
Variable scraper : string -> outcome (option (gmap string pyval)).
Variable format_exact_number : pyval -> result string.
Variable GOLD_BOX_EMOJI : string.
Variable render_player : gmap string pyval -> Q -> result Embed.
Variable format_duration : Q -> string.
Variable format_number : Z -> string.
Variable str_of_float : Q -> string.

#[local] Abbreviation player := (General.player_command_handler strip scraper render_player).
#[local] Abbreviation compare :=
  (General.compare_command_handler strip lower scraper format_exact_number GOLD_BOX_EMOJI).
#[local] Abbreviation botstats :=
  (General.botstats_command_handler format_duration format_number str_of_float).
#[local] Abbreviation handle :=
  (General.dispatch strip lower scraper format_exact_number GOLD_BOX_EMOJI render_player
     format_duration format_number str_of_float).
#[local] Abbreviation interruption := (General.interruption strip lower scraper).
#[local] Abbreviation ending := (General.ending strip lower scraper).

Lemma player_course username clk w :
  exists w',
    player username clk w = (ending (General.PlayerCommand username clk), w')
    /\ lookups w' = lookups w ++ [strip username]
    /\ match interruption (General.PlayerCommand username clk) with
       | None => exists reply, sent w' = sent w ++ [reply]
       | Some _ => sent w' = sent w
       end.
Proof.
  unfold General.player_command_handler, General.await_get_player_data, General.ending.
  run_task.
  destruct (scraper (strip username)) as [data|[e|b]]; simpl; [| |eauto].
  - destruct (found data) as [d|]; simpl; [|eauto 6].
    destruct (render_player d (datetime_now clk)); simpl; eauto 6.
  - eauto 6.
Qed.

(** A [/compare] of two different names whose lookups do not stop the
    event loop, by the truth values of the two results. *)
Lemma compare_run player1 player2 clk w :
  String.eqb (lower (strip player1)) (lower (strip player2)) = false ->
  General.stops_event_loop (scraper (strip player1)) = None ->
  General.stops_event_loop (scraper (strip player2)) = None ->
  let x1 := General.exception_to_none (scraper (strip player1)) in
  let x2 := General.exception_to_none (scraper (strip player2)) in
  let failed := fun n reply =>
    mkWorld (start_time w) (commands_processed w + 1) (scraping_successes w)
      (scraping_failures w + n) (total_scraping_time w)
      (sent w ++ [reply]) (lookups w ++ [strip player1; strip player2]) in
  compare player1 player2 clk w
  = (Returned tt,
     if negb (General.truth x1) && negb (General.truth x2) then
       failed 2 (players_not_found_embed (strip player1) (strip player2))
     else if negb (General.truth x1) then
       failed 1 (compare_not_found_embed (strip player1))
     else if negb (General.truth x2) then
       failed 1 (compare_not_found_embed (strip player2))
     else
       match General._create_comparison_embed format_exact_number GOLD_BOX_EMOJI
               x1 x2 (datetime_now clk) with
       | Ok embed =>
           mkWorld (start_time w) (commands_processed w + 1)
             (scraping_successes w + 2) (scraping_failures w)
             (total_scraping_time w + (time_end clk - time_start clk))%Q
             (sent w ++ [embed]) (lookups w ++ [strip player1; strip player2])
       | Raise _ => failed 1 compare_error_embed
       end).
Proof.
  intros Hdiff H1 H2 x1 x2 failed.
  unfold General.compare_command_handler, General.gather. run_task.
  rewrite Hdiff, H1, H2. simpl. fold x1 x2.
  destruct (General.truth x1), (General.truth x2); simpl; try reflexivity.
  destruct (General._create_comparison_embed format_exact_number GOLD_BOX_EMOJI
              x1 x2 (datetime_now clk)); reflexivity.
Qed.

Lemma compare_course player1 player2 clk w :
  exists w',
    compare player1 player2 clk w
    = (ending (General.CompareCommand player1 player2 clk), w')
    /\ lookups w' = lookups w ++
         (if String.eqb (lower (strip player1)) (lower (strip player2)) then []
          else [strip player1; strip player2])
    /\ match interruption (General.CompareCommand player1 player2 clk) with
       | None => exists reply, sent w' = sent w ++ [reply]
       | Some _ => sent w' = sent w
       end.
Proof.
  unfold General.ending. simpl.
  destruct (String.eqb (lower (strip player1)) (lower (strip player2))) eqn:Hsame.
  - unfold General.compare_command_handler. run_task. rewrite Hsame. simpl.
    eexists. split; [reflexivity|]. simpl. rewrite app_nil_r. eauto.
  - destruct (General.stops_event_loop (scraper (strip player1))) as [b1|] eqn:H1.
    + unfold General.compare_command_handler, General.gather. run_task.
      rewrite Hsame, H1. simpl. eauto.
    + destruct (General.stops_event_loop (scraper (strip player2))) as [b2|] eqn:H2.
      * unfold General.compare_command_handler, General.gather. run_task.
        rewrite Hsame, H1, H2. simpl. eauto.
      * rewrite (compare_run player1 player2 clk w Hsame H1 H2).
        eexists. split; [reflexivity|].
        destruct (General.truth _), (General.truth _); simpl; eauto;
          destruct (General._create_comparison_embed _ _ _ _ _); simpl; eauto.
Qed.

Lemma botstats_course env response w :
  exists w',
    botstats env response w = (ending (General.BotstatsCommand env response), w')
    /\ lookups w' = lookups w
    /\ match interruption (General.BotstatsCommand env response) with
       | None => exists reply, sent w' = sent w ++ [reply]
       | Some _ => sent w' = sent w
       end.
Proof.
  destruct (avg_scraping_latency_ok (snd (incr_commands_processed w)))
    as (avg & Havg & _).
  destruct (success_rate_ok (snd (incr_commands_processed w)))
    as (rate & Hrate & _).
  unfold General.botstats_command_handler, General._check_website_status, General.ending.
  run_task. rewrite Havg, Hrate. simpl.
  destruct response as [[status arrived]|[e|b]]; simpl; eauto.
  destruct (status =? 200); simpl; eauto.
Qed.

Lemma handle_course i w :
  exists w',
    handle i w = (ending i, w')
    /\ lookups w' = lookups w ++
         match i with
         | General.PlayerCommand username _ => [strip username]
         | General.CompareCommand player1 player2 _ =>
             if String.eqb (lower (strip player1)) (lower (strip player2)) then []
             else [strip player1; strip player2]
         | General.BotstatsCommand _ _ => []
         end
    /\ match interruption i with
       | None => exists reply, sent w' = sent w ++ [reply]
       | Some _ => sent w' = sent w
       end.
Proof.
  destruct i as [username clk|player1 player2 clk|env response].
  - apply player_course.
  - apply compare_course.
  - destruct (botstats_course env response w) as (w' & H & Hl & Hs).
    exists w'. rewrite app_nil_r. auto.
Qed.

End Courses.

(** C8, the claim as stated fails: when the request is cancelled while it
    is awaited, [session.get] raises [asyncio.CancelledError], which is not
    an instance of [Exception]; [except Exception] (line 503) does not
    catch it, so the check returns no status string and the exception
    reaches its caller. *)
Lemma cancelled_probe_reaches_the_caller :
  fst (General._check_website_status (fun _ => "") 0
         (Raised (ABaseException General.CancelledError)) (init 0))
  = Raised (ABaseException General.CancelledError).
Proof. reflexivity. Qed.

(** C8, amended. [_check_website_status] returns the Online text with the
    rounded response time when the status is 200, the Partial text with
    the status code for any other status, and the Offline text when an
    instance of [Exception] was raised inside the [try]; an exception that
    is not an instance of [Exception] is propagated to the caller. In
    every case the bot's state is left alone. *)
Theorem check_website_status_catches_exceptions_only
    (str_of_float : Q -> string) (start : Q) (response : outcome (Z * Q)) (w : World) :
  General._check_website_status str_of_float start response w
  = (match response with
     | Returned (status, arrived) =>
         Returned (if status =? 200
                   then "🟢 Online ("
                        +:+ str_of_float (round ((arrived - start) * 1000) 2) +:+ "ms)"
                   else "🟡 Partial (" +:+ str_of_Z status +:+ ")")
     | Raised (AnException _) => Returned "🔴 Offline"
     | Raised (ABaseException b) => Raised (ABaseException b)
     end, w).
Proof.
  unfold General._check_website_status. run_task.
  destruct response as [[status arrived]|[e|b]]; simpl; try reflexivity.
  destruct (status =? 200); reflexivity.
Qed.






(** X2. The scraper is called with the names as [str.strip] leaves them,
    neither lower-cased nor otherwise changed: once by [/player], not at
    all by [/botstats] and by a [/compare] of one player with themselves,
    and otherwise twice by [/compare], for the first and then the second
    name, whatever the lookups return or raise. *)
Theorem lookups_are_the_trimmed_names
    (strip lower : string -> string) scraper format_exact_number GOLD_BOX_EMOJI
    render_player format_duration format_number str_of_float
    (i : General.Interaction) (w : World) :
  lookups (snd (General.dispatch strip lower scraper format_exact_number
                  GOLD_BOX_EMOJI render_player format_duration format_number
                  str_of_float i w))
  = lookups w ++
    match i with
    | General.PlayerCommand username _ => [strip username]
    | General.CompareCommand player1 player2 _ =>
        if String.eqb (lower (strip player1)) (lower (strip player2)) then []
        else [strip player1; strip player2]
    | General.BotstatsCommand _ _ => []
    end.
Proof.
  destruct (handle_course strip lower scraper format_exact_number GOLD_BOX_EMOJI
              render_player format_duration format_number str_of_float i w)
    as (w' & Hrun & Hlook & _).
  rewrite Hrun. exact Hlook.
Qed.



Lemma comparison_embed_of_an_object
    format_exact_number GOLD_BOX_EMOJI
    (x1 x2 : outcome (option (gmap string pyval))) (now : Q) :
  (exists r, x1 = Raised r) \/ (exists r, x2 = Raised r) ->
  exists e,
    General._create_comparison_embed format_exact_number GOLD_BOX_EMOJI x1 x2 now
    = Raise e.
Proof.
  intros [[r ->]|[r ->]]; simpl; [by destruct x2 as [[d|]|]; eauto|].
  destruct x1 as [[d|]|]; simpl; eauto.
  destruct (getitem d "username"); simpl; eauto.
Qed.



End GeneralLaws.

(* ===================================================================== *)
(** * Properties of the scraper service *)
(* ===================================================================== *)

Module ScraperFacts.
Import Scraper.

#[local] Abbreviation chars := list_ascii_of_string.

(** ** Trimming *)

Lemma lstrip_spaces s : Forall (fun c => isspace c = true) (chars s) -> lstrip s = "".
Proof.
  induction s as [|c s IH]; simpl; [reflexivity|].
  intros H. inversion H as [|? ? Hc Hs]; subst. rewrite Hc. auto.
Qed.

Lemma strip_spaces s : Forall (fun c => isspace c = true) (chars s) -> strip s = "".
Proof. intros H. unfold strip. rewrite (lstrip_spaces _ H). reflexivity. Qed.

Lemma lstrip_no_space s : Forall (fun c => isspace c = false) (chars s) -> lstrip s = s.
Proof. destruct s as [|c s]; simpl; [reflexivity|]. intros H. inversion H; subst. by rewrite H2. Qed.

Lemma rstrip_no_space s : Forall (fun c => isspace c = false) (chars s) -> rstrip s = s.
Proof.
  induction s as [|c s IH]; simpl; [reflexivity|].
  intros H. inversion H as [|? ? Hc Hs]; subst. rewrite (IH Hs).
  destruct s; [by rewrite Hc|reflexivity].
Qed.

Lemma strip_no_space s : Forall (fun c => isspace c = false) (chars s) -> strip s = s.
Proof. intros H. unfold strip. rewrite (lstrip_no_space _ H). by apply rstrip_no_space. Qed.

Lemma In_lstrip c s : In c (chars (lstrip s)) -> In c (chars s).
Proof.
  induction s as [|a s IH]; simpl; [tauto|].
  destruct (isspace a); simpl; auto.
Qed.

Lemma In_rstrip c s : In c (chars (rstrip s)) -> In c (chars s).
Proof.
  induction s as [|a s IH]; simpl; [tauto|].
  destruct (rstrip s) as [|b r] eqn:E.
  - destruct (isspace a); simpl; tauto.
  - simpl in *. tauto.
Qed.

Lemma In_strip c s : In c (chars (strip s)) -> In c (chars s).
Proof. intros H. apply In_lstrip, In_rstrip, H. Qed.

Lemma lstrip_keeps c s : In c (chars s) -> isspace c = false -> In c (chars (lstrip s)).
Proof.
  induction s as [|a s IH]; simpl; [tauto|].
  intros [->|H] Hc.
  - rewrite Hc. simpl. auto.
  - destruct (isspace a); simpl; auto.
Qed.

Lemma rstrip_keeps c s : In c (chars s) -> isspace c = false -> In c (chars (rstrip s)).
Proof.
  induction s as [|a s IH]; simpl; [tauto|].
  intros [->|H] Hc.
  - destruct (rstrip s); [rewrite Hc|]; simpl; auto.
  - specialize (IH H Hc). destruct (rstrip s); simpl in *; tauto.
Qed.

Lemma strip_keeps c s : In c (chars s) -> isspace c = false -> In c (chars (strip s)).
Proof. intros H Hc. unfold strip. by apply rstrip_keeps; [apply lstrip_keeps|]. Qed.

Lemma rstrip_idempotent s : rstrip (rstrip s) = rstrip s.
Proof.
  induction s as [|c s IH]; simpl; [reflexivity|].
  destruct (rstrip s) as [|b r] eqn:E.
  - destruct (isspace c) eqn:Hc; simpl; [reflexivity|]. by rewrite Hc.
  - change (rstrip (String c (String b r)))
      with (match rstrip (String b r) with
            | EmptyString => if isspace c then EmptyString else String c EmptyString
            | String b' r' => String c (String b' r')
            end).
    by rewrite IH.
Qed.

Lemma lstrip_head s c t : lstrip s = String c t -> isspace c = false.
Proof.
  induction s as [|a s IH]; simpl; [discriminate|].
  destruct (isspace a) eqn:Ha; [exact IH|]. by intros [= <- _].
Qed.

Lemma rstrip_head c s : isspace c = false -> exists t, rstrip (String c s) = String c t.
Proof.
  intros Hc. simpl. destruct (rstrip s); [rewrite Hc|]; eauto.
Qed.

(** Trimming a trimmed name changes nothing: the names the bot passes
    ([username.strip()], lines 76 and 121-122) are their own trimmed
    form. *)
Lemma strip_idempotent s : strip (strip s) = strip s.
Proof.
  unfold strip. destruct (lstrip s) as [|c t] eqn:E; [reflexivity|].
  destruct (rstrip_head c t (lstrip_head _ _ _ E)) as (t' & Ht).
  rewrite Ht. simpl. rewrite (lstrip_head _ _ _ E).
  rewrite <- Ht. apply rstrip_idempotent.
Qed.

(** ** Digits *)

Lemma uint_of_char_nondigit c d : is_digit c = false -> uint_of_char c d = None.
Proof.
  destruct d as [d|]; [|reflexivity].
  destruct c as [[] [] [] [] [] [] [] []]; try discriminate; reflexivity.
Qed.

Lemma uint_of_string_nondigit c s :
  In c (chars s) -> is_digit c = false -> NilEmpty.uint_of_string s = None.
Proof.
  induction s as [|a s IH]; simpl; [tauto|].
  intros [->|H] Hc.
  - by apply uint_of_char_nondigit.
  - by rewrite (IH H Hc).
Qed.

Lemma digits_nondigit c s : In c (chars s) -> is_digit c = false -> digits s = None.
Proof. intros H Hc. unfold digits. by rewrite (uint_of_string_nondigit c s). Qed.

Lemma chars_remove_separators s :
  chars (remove_separators s) = List.filter (fun c => negb (is_separator c)) (chars s).
Proof.
  induction s as [|a s IH]; simpl; [reflexivity|].
  destruct (is_separator a); simpl; by rewrite IH.
Qed.

Lemma In_remove_separators c s :
  In c (chars (remove_separators s)) <-> In c (chars s) /\ is_separator c = false.
Proof.
  rewrite chars_remove_separators, List.filter_In.
  destruct (is_separator c); simpl; intuition congruence.
Qed.

Lemma to_uint_not_nil n : N.to_uint n <> Decimal.Nil.
Proof.
  destruct n as [|p]; [discriminate|]. simpl. 
  apply DecimalPos.Unsigned.to_uint_nonnil.
Qed.

Lemma str_of_N_NilEmpty n : str_of_N n = NilEmpty.string_of_uint (N.to_uint n).
Proof.
  unfold str_of_N, NilZero.string_of_uint.
  pose proof (to_uint_not_nil n). by destruct (N.to_uint n).
Qed.

Lemma digits_str_of_N n : digits (str_of_N n) = Some n.
Proof.
  unfold digits. rewrite str_of_N_NilEmpty, NilEmpty.usu. simpl.
  by rewrite DecimalN.Unsigned.of_to.
Qed.

Lemma string_of_uint_digits d :
  Forall (fun c => is_digit c = true) (chars (NilEmpty.string_of_uint d)).
Proof. induction d; simpl; constructor; auto. Qed.

Lemma str_of_N_digits n : Forall (fun c => is_digit c = true) (chars (str_of_N n)).
Proof. rewrite str_of_N_NilEmpty. apply string_of_uint_digits. Qed.

Lemma str_of_N_nonempty n : str_of_N n <> "".
Proof.
  rewrite str_of_N_NilEmpty. pose proof (to_uint_not_nil n).
  by destruct (N.to_uint n).
Qed.


(** ** Counts *)

Lemma chars_inj s t : chars s = chars t -> s = t.
Proof.
  intros H. rewrite <- (string_of_list_ascii_of_string s),
    <- (string_of_list_ascii_of_string t). by rewrite H.
Qed.

Lemma filter_group_from_right k l :
  Forall (fun c => is_separator c = false) l ->
  List.filter (fun c => negb (is_separator c)) (group_from_right k l) = l.
Proof.
  intros H. revert k. induction H as [|c l Hc Hl IH]; intros k; [reflexivity|].
  destruct k; simpl; rewrite Hc; simpl; by rewrite IH.
Qed.

Lemma group_from_right_chars k l c :
  In c (group_from_right k l) -> In c l \/ c = ","%char.
Proof.
  revert k. induction l as [|a l IH]; intros k; simpl; [tauto|].
  destruct k; simpl; intros H.
  - destruct H as [H|[H|H]]; auto. destruct (IH _ H); auto.
  - destruct H as [H|H]; auto. destruct (IH _ H); auto.
Qed.

Lemma digit_not_separator c : is_digit c = true -> is_separator c = false.
Proof. destruct c as [[] [] [] [] [] [] [] []]; try discriminate; reflexivity. Qed.

Lemma digit_not_space c : is_digit c = true -> isspace c = false.
Proof. destruct c as [[] [] [] [] [] [] [] []]; try discriminate; reflexivity. Qed.

Lemma punctuation_not_digit c : is_punctuation c = true -> is_digit c = false.
Proof. destruct c as [[] [] [] [] [] [] [] []]; try discriminate; reflexivity. Qed.

Lemma chars_thousands_separated n :
  chars (thousands_separated n)
  = rev (group_from_right 3 (rev (chars (str_of_N n)))).
Proof. unfold thousands_separated. apply list_ascii_of_string_of_list_ascii. Qed.

Lemma strip_thousands_separated n :
  strip (thousands_separated n) = thousands_separated n.
Proof.
  apply strip_no_space. apply List.Forall_forall. intros c Hc.
  rewrite chars_thousands_separated in Hc. apply List.in_rev in Hc.
  apply group_from_right_chars in Hc. destruct Hc as [Hc| ->]; [|reflexivity].
  apply List.in_rev in Hc. apply digit_not_space.
  pose proof (str_of_N_digits n) as Hd.
  rewrite List.Forall_forall in Hd. by apply Hd.
Qed.

Lemma remove_separators_thousands_separated n :
  remove_separators (thousands_separated n) = str_of_N n.
Proof.
  apply chars_inj.
  rewrite chars_remove_separators, chars_thousands_separated.
  rewrite List.filter_rev, filter_group_from_right, List.rev_involutive; [reflexivity|].
  apply List.Forall_forall. intros c Hc. apply List.in_rev in Hc.
  apply digit_not_separator.
  pose proof (str_of_N_digits n) as Hd.
  rewrite List.Forall_forall in Hd. by apply Hd.
Qed.

Lemma remove_separators_digits s :
  Forall (fun c => is_digit c = true) (chars s) -> remove_separators s = s.
Proof.
  induction s as [|a s IH]; simpl; [reflexivity|].
  intros H. inversion H as [|? ? Ha Hs]; subst.
  rewrite (digit_not_separator _ Ha). by rewrite IH.
Qed.

Lemma parse_count_of_cleaned text n :
  remove_separators (strip text) = str_of_N n -> parse_count text = Ok n.
Proof.
  intros H. unfold parse_count. rewrite H.
  pose proof (digits_str_of_N n) as Hd. pose proof (str_of_N_nonempty n).
  destruct (str_of_N n); [congruence|]. by rewrite Hd.
Qed.

Lemma normalize_count_foreign text c :
  In c (chars (remove_separators (strip text))) -> is_digit c = false ->
  normalize_count (Some text) = 0%N.
Proof.
  intros Hin Hc. unfold normalize_count, parse_count.
  pose proof (digits_nondigit c _ Hin Hc) as Hd.
  destruct (remove_separators (strip text)); [reflexivity|]. by rewrite Hd.
Qed.

Lemma normalize_count_no_digit text :
  Forall (fun c => is_digit c = false) (chars text) ->
  normalize_count (Some text) = 0%N.
Proof.
  intros H. rewrite List.Forall_forall in H.
  destruct (remove_separators (strip text)) as [|c r] eqn:E.
  - unfold normalize_count, parse_count. by rewrite E.
  - apply (normalize_count_foreign text c).
    + rewrite E. simpl. auto.
    + apply H. apply In_strip.
      apply (proj1 (In_remove_separators c (strip text))).
      rewrite E. simpl. auto.
Qed.

(** C4. A numeric field that is missing, empty, made of punctuation only,
    without any digit, or that contains a character which is neither a
    digit, a separator nor white space, normalizes to 0; every parse
    fault is absorbed as 0; and a count printed plainly or with thousands
    separators normalizes to that count. *)
Theorem numeric_fields_normalize_safely :
  normalize_count None = 0%N
  /\ normalize_count (Some "") = 0%N
  /\ (forall text,
        Forall (fun c => is_punctuation c = true) (list_ascii_of_string text) ->
        normalize_count (Some text) = 0%N)
  /\ (forall text,
        Forall (fun c => is_digit c = false) (list_ascii_of_string text) ->
        normalize_count (Some text) = 0%N)
  /\ (forall text c,
        In c (list_ascii_of_string text) ->
        is_digit c = false -> is_separator c = false -> isspace c = false ->
        normalize_count (Some text) = 0%N)
  /\ (forall text e, parse_count text = Raise e -> normalize_count (Some text) = 0%N)
  /\ (forall n, normalize_count (Some (str_of_N n)) = n)
  /\ (forall n, normalize_count (Some (thousands_separated n)) = n).
Proof.
  repeat apply conj.
  - reflexivity.
  - reflexivity.
  - intros text H. apply normalize_count_no_digit.
    eapply List.Forall_impl; [|exact H]. apply punctuation_not_digit.
  - apply normalize_count_no_digit.
  - intros text c Hin Hd Hsep Hsp.
    apply (normalize_count_foreign text c); [|exact Hd].
    apply In_remove_separators. split; [|exact Hsep].
    by apply strip_keeps.
  - intros text e H. unfold normalize_count. by rewrite H.
  - intros n. unfold normalize_count.
    rewrite (parse_count_of_cleaned _ n); [reflexivity|].
    pose proof (str_of_N_digits n) as Hd.
    rewrite strip_no_space.
    + by apply remove_separators_digits.
    + eapply List.Forall_impl; [|exact Hd]. apply digit_not_space.
  - intros n. unfold normalize_count.
    rewrite (parse_count_of_cleaned _ n); [reflexivity|].
    rewrite strip_thousands_separated. apply remove_separators_thousands_separated.
Qed.

Lemma numeric_fields_normalize_safely_witness :
  normalize_count (Some "?!") = 0%N
  /\ normalize_count (Some "12a4") = 0%N
  /\ normalize_count (Some (thousands_separated 105613)) = 105613%N.
Proof.
  destruct numeric_fields_normalize_safely
    as (_ & _ & Hpunct & _ & Hforeign & _ & _ & Hsep).
  split; [|split].
  - apply Hpunct. repeat constructor.
  - apply (Hforeign "12a4" "a"%char); [simpl; tauto|reflexivity..].
  - apply Hsep.
Defined.

End ScraperFacts.

Module ServiceFacts.
Import Scraper.

(** ** Ranks *)

Lemma rank_index_ok table text i :
  rank_index table text = Ok i ->
  exists r, table !! i = Some r /\ lower r = lower text
            /\ forall j r', (j < i)%nat -> table !! j = Some r' -> lower r' <> lower text.
Proof.
  revert i. induction table as [|r table IH]; intros i; simpl; [discriminate|].
  destruct (String.eqb (lower r) (lower text)) eqn:E.
  - intros [= <-]. apply String.eqb_eq in E. exists r. repeat split; auto. lia.
  - apply String.eqb_neq in E.
    destruct (rank_index table text) as [k|e] eqn:Hk; simpl; [|discriminate].
    intros [= <-]. destruct (IH k eq_refl) as (r0 & Hr0 & Hl & Hmin).
    exists r0. repeat split; auto.
    intros [|j] r' Hj Hr'; simpl in Hr'.
    + by injection Hr' as <-.
    + apply (Hmin j r'); [lia|exact Hr'].
Qed.

Lemma rank_index_found table text r :
  In r table -> lower r = lower text -> exists i, rank_index table text = Ok i.
Proof.
  induction table as [|r0 table IH]; simpl; [tauto|].
  intros Hin Hl. destruct (String.eqb (lower r0) (lower text)) eqn:E; [eauto|].
  destruct Hin as [->|Hin].
  - apply String.eqb_neq in E. contradiction.
  - destruct (IH Hin Hl) as (i & ->). simpl. eauto.
Qed.

Lemma rank_index_absent table text :
  (forall r, In r table -> lower r <> lower text) ->
  rank_index table text = Raise ValueError.
Proof.
  induction table as [|r0 table IH]; simpl; [reflexivity|].
  intros H. destruct (String.eqb (lower r0) (lower text)) eqn:E.
  - apply String.eqb_eq in E. exfalso. apply (H r0); auto.
  - rewrite IH; [reflexivity|]. intros r Hr. apply H. auto.
Qed.




(** ** Facade *)

Section Facade.

Variable max_username_length : nat.
Variable valid_char : ascii -> bool.

#[local] Abbreviation lookup := (get_player_data max_username_length valid_char).

Lemma lookup_invalid caller username s :
  valid_username max_username_length valid_char (strip username) = false ->
  lookup caller username s
  = mkService (inflight s) (fetch_log s) (delivered s ++ [(caller, None)]).
Proof. intros H. unfold get_player_data. by rewrite H. Qed.

Lemma lookup_valid caller username s :
  valid_username max_username_length valid_char (strip username) = true ->
  lookup caller username s
  = match inflight s !! lower (strip username) with
    | Some waiting =>
        mkService (<[lower (strip username) := waiting ++ [caller]]> (inflight s))
                  (fetch_log s) (delivered s)
    | None =>
        mkService (<[lower (strip username) := [caller]]> (inflight s))
                  (fetch_log s ++ [lower (strip username)]) (delivered s)
    end.
Proof. intros H. unfold get_player_data. by rewrite H. Qed.

End Facade.




(** ** In-flight table *)

Section Dedup.

Variable rank_table : list string.
Variable max_username_length : nat.
Variable valid_char : ascii -> bool.
Variable extract : string -> result (RawFields + ParseError).

#[local] Abbreviation step' := (step rank_table max_username_length valid_char extract).
#[local] Abbreviation run' := (run rank_table max_username_length valid_char extract).
#[local] Abbreviation callers := (callers_of max_username_length valid_char).
#[local] Abbreviation valid := (valid_username max_username_length valid_char).

Lemma fetches_snoc key k i log d :
  fetches key (mkService i (log ++ [k]) d)
  = (fetches key (mkService i log d) + (if decide (k = key) then 1 else 0))%nat.
Proof.
  unfold fetches. simpl. rewrite filter_app, length_app. f_equal.
  rewrite filter_cons, filter_nil. by destruct (decide (k = key)).
Qed.

Lemma step_window key e s :
  completes key e = false ->
  forall cs,
    joined (inflight (step' s e) !! key) cs
    = joined (inflight s !! key) (callers key [e] ++ cs)
    /\ (fetches key (step' s e) + issued (inflight (step' s e) !! key) cs
        = fetches key s + issued (inflight s !! key) (callers key [e] ++ cs))%nat.
Proof.
  intros Hopen cs. destruct e as [c u|k up]; simpl.
  - destruct (valid (strip u)) eqn:Hv; simpl.
    + rewrite (lookup_valid _ _ _ _ _ Hv).
      destruct (String.eqb (lower (strip u)) key) eqn:Hk; simpl.
      * apply String.eqb_eq in Hk. rewrite Hk.
        destruct (inflight s !! key) as [w|] eqn:Hw; simpl.
        -- rewrite lookup_insert_eq. simpl. rewrite <- app_assoc. simpl.
           split; [reflexivity|]. unfold fetches. simpl. lia.
        -- rewrite lookup_insert_eq. simpl.
           split; [reflexivity|]. rewrite fetches_snoc.
           rewrite decide_True by reflexivity. unfold fetches. simpl. lia.
      * apply String.eqb_neq in Hk.
        destruct (inflight s !! lower (strip u)) as [w|] eqn:Hw; simpl.
        -- rewrite lookup_insert_ne by exact Hk. split; [reflexivity|].
           unfold fetches. simpl. reflexivity.
        -- rewrite lookup_insert_ne by exact Hk. split; [reflexivity|].
           rewrite fetches_snoc. rewrite decide_False by exact Hk.
           unfold fetches. simpl. lia.
    + rewrite (lookup_invalid _ _ _ _ _ Hv). simpl. split; reflexivity.
  - simpl in Hopen. apply String.eqb_neq in Hopen.
    unfold complete. destruct (inflight s !! k) as [w|] eqn:Hw; simpl.
    + rewrite lookup_delete_ne by exact Hopen. split; reflexivity.
    + split; reflexivity.
Qed.

Lemma callers_cons key e schedule :
  callers key (e :: schedule) = callers key [e] ++ callers key schedule.
Proof.
  destruct e as [c u|k up]; simpl; [|reflexivity].
  destruct (valid (strip u) && String.eqb (lower (strip u)) key); reflexivity.
Qed.

Lemma run_window key schedule :
  window_open key schedule = true ->
  forall s,
    inflight (run' s schedule) !! key
    = joined (inflight s !! key) (callers key schedule)
    /\ fetches key (run' s schedule)
       = (fetches key s + issued (inflight s !! key) (callers key schedule))%nat.
Proof.
  induction schedule as [|e schedule IH]; intros Hopen s.
  - simpl. destruct (inflight s !! key); simpl.
    + rewrite app_nil_r. split; [reflexivity|lia].
    + split; [reflexivity|lia].
  - simpl in Hopen. apply andb_true_iff in Hopen as [He Hrest].
    apply negb_true_iff in He.
    destruct (IH Hrest (step' s e)) as [Hin Hf].
    destruct (step_window key e s He (callers key schedule)) as [Hj Hi].
    change (run' s (e :: schedule)) with (run' (step' s e) schedule).
    rewrite callers_cons, Hin, Hf. split; [exact Hj|exact Hi].
Qed.

End Dedup.



End ServiceFacts.

Module RatioFacts.
Import Scraper ScraperFacts.

#[local] Abbreviation chars := list_ascii_of_string.

(** ** Rounding *)

Lemma round_half_even_near (q : Q) :
  (Qabs (inject_Z (round_half_even q) - q) <= 1 # 2)%Q.
Proof.
  unfold round_half_even.
  pose proof (Qfloor_le q) as Hlo. pose proof (Qlt_floor q) as Hhi.
  rewrite inject_Z_plus in Hhi. change (inject_Z 1) with 1%Q in Hhi.
  destruct (Qcompare_spec (q - inject_Z (Qfloor q)) (1 # 2)) as [E|E|E].
  - destruct (Z.even (Qfloor q)); [|rewrite inject_Z_plus; change (inject_Z 1) with 1%Q];
      apply Qabs_case; intros; lra.
  - apply Qabs_case; intros; lra.
  - rewrite inject_Z_plus; change (inject_Z 1) with 1%Q.
    apply Qabs_case; intros; lra.
Qed.

Lemma round_half_even_nonneg (q : Q) : (0 <= q)%Q -> 0 <= round_half_even q.
Proof.
  intros H. unfold round_half_even.
  assert (0 <= Qfloor q) by (apply (Qfloor_resp_le 0 q) in H; exact H).
  destruct (q - inject_Z (Qfloor q) ?= 1 # 2)%Q; [destruct (Z.even _)|..]; lia.
Qed.


(** ** Reading back a two-decimal numeral *)

Lemma chars_append s t : chars (s +:+ t) = chars s ++ chars t.
Proof. induction s as [|c s IH]; simpl; [reflexivity|]. by rewrite IH. Qed.

Lemma split_dot_digits ip fp :
  Forall (fun c => is_digit c = true) (chars ip) ->
  split_dot (ip +:+ String "." fp) = (ip, Some fp).
Proof.
  induction ip as [|c ip IH]; simpl; [reflexivity|].
  intros H. inversion H as [|? ? Hc Hip]; subst. rewrite (IH Hip).
  destruct (Ascii.eqb_spec c "."); [subst; discriminate|reflexivity].
Qed.

Lemma below_ten (a : N) :
  (a < 10)%N ->
  (a = 0 \/ a = 1 \/ a = 2 \/ a = 3 \/ a = 4 \/ a = 5 \/ a = 6 \/ a = 7 \/ a = 8 \/ a = 9)%N.
Proof. lia. Qed.

Ltac each_digit H :=
  apply below_ten in H;
  destruct H as [->|[->|[->|[->|[->|[->|[->|[->|[->| ->]]]]]]]]].

Lemma digit_char_is_digit a : (a < 10)%N -> is_digit (digit_char a) = true.
Proof. intros H. each_digit H; reflexivity. Qed.

Lemma digits_two a b :
  (a < 10)%N -> (b < 10)%N ->
  digits (String (digit_char a) (String (digit_char b) "")) = Some (10 * a + b)%N.
Proof. intros Ha Hb. each_digit Ha; each_digit Hb; reflexivity. Qed.

Lemma float_of_string_unsigned body :
  strip body = body ->
  (forall c s, body = String c s -> is_digit c = true) ->
  float_of_string body
  = match unsigned_decimal body with Some q => Ok q | None => Raise ValueError end.
Proof.
  intros Hstrip Hhead. unfold float_of_string. rewrite Hstrip.
  destruct body as [|c s]; [reflexivity|].
  specialize (Hhead c s eq_refl).
  destruct c as [[] [] [] [] [] [] [] []]; try discriminate; reflexivity.
Qed.

Lemma unsigned_decimal_fixed whole fp f :
  digits fp = Some f ->
  unsigned_decimal (str_of_N whole +:+ String "." fp)
  = Some (inject_Z (Z.of_N whole)
          + inject_Z (Z.of_N f) / inject_Z (10 ^ Z.of_nat (String.length fp)))%Q.
Proof.
  intros Hf. unfold unsigned_decimal.
  rewrite (split_dot_digits _ _ (str_of_N_digits whole)).
  pose proof (digits_str_of_N whole) as Hw.
  pose proof (str_of_N_nonempty whole) as Hne.
  destruct (str_of_N whole) as [|c s]; [congruence|].
  by rewrite Hw, Hf.
Qed.

(** The two-decimal numeral of a count of hundredths. *)
Lemma float_of_two_decimals (h : N) :
  exists q,
    float_of_string
      (str_of_N (h / 100) +:+ "." +:+
       String (digit_char ((h mod 100) / 10))
         (String (digit_char ((h mod 100) mod 10)) EmptyString)) = Ok q
    /\ (q == inject_Z (Z.of_N h) / 100)%Q.
Proof.
  set (a := ((h mod 100) / 10)%N). set (b := ((h mod 100) mod 10)%N).
  assert (Hr : (h mod 100 < 100)%N) by (apply N.mod_lt; discriminate).
  assert (Ha : (a < 10)%N) by (subst a; apply N.Div0.div_lt_upper_bound; lia).
  assert (Hb : (b < 10)%N) by (subst b; apply N.mod_lt; discriminate).
  eexists. split.
  - rewrite float_of_string_unsigned.
    + change ("." +:+ String (digit_char a) (String (digit_char b) ""))
        with (String "." (String (digit_char a) (String (digit_char b) ""))).
      rewrite (unsigned_decimal_fixed _ _ _ (digits_two a b Ha Hb)). reflexivity.
    + apply strip_no_space. rewrite chars_append. apply Forall_app. split.
      * eapply List.Forall_impl; [|apply str_of_N_digits]. apply digit_not_space.
      * simpl. repeat constructor; apply digit_not_space, digit_char_is_digit; assumption.
    + intros c s Hcs. pose proof (str_of_N_digits (h / 100)) as Hd.
      pose proof (str_of_N_nonempty (h / 100)) as Hne.
      destruct (str_of_N (h / 100)) as [|c0 s0]; [congruence|].
      simpl in Hcs. injection Hcs as <- _. by inversion Hd.
  - assert (E : (10 * a + b = h mod 100)%N).
    { subst a b. rewrite (N.div_mod (h mod 100) 10) at 3 by discriminate. reflexivity. }
    rewrite E. simpl String.length.
    assert (Eh : Z.of_N h = 100 * Z.of_N (h / 100) + Z.of_N (h mod 100)).
    { rewrite (N.div_mod h 100) at 1 by discriminate. lia. }
    rewrite Eh, inject_Z_plus, inject_Z_mult.
    change (inject_Z (10 ^ Z.of_nat 2)) with 100%Q. change (inject_Z 100) with 100%Q.
    field.
Qed.

Lemma format_2f_nonneg (q : Q) :
  (0 <= q)%Q ->
  format_2f q
  = let h := Z.to_N (round_half_even (q * 100)) in
    str_of_N (h / 100) +:+ "." +:+
    String (digit_char ((h mod 100) / 10))
      (String (digit_char ((h mod 100) mod 10)) EmptyString).
Proof.
  intros Hq. unfold format_2f.
  assert (H : 0 <= round_half_even (q * 100)) by (apply round_half_even_nonneg; lra).
  destruct (round_half_even (q * 100) <? 0) eqn:E; [apply Z.ltb_lt in E; lia|].
  rewrite Z.abs_eq by exact H. reflexivity.
Qed.

(** [float] reads a formatted non-negative ratio back as that ratio
    rounded to two decimals. *)
Lemma float_of_format_2f (q : Q) :
  (0 <= q)%Q ->
  exists q', float_of_string (format_2f q) = Ok q'
             /\ (q' == round q 2)%Q /\ (0 <= q')%Q /\ (Qabs (q' - q) <= 1 # 200)%Q.
Proof.
  intros Hq. rewrite (format_2f_nonneg q Hq). cbv zeta.
  destruct (float_of_two_decimals (Z.to_N (round_half_even (q * 100))))
    as (q' & Hread & Hval).
  assert (H : 0 <= round_half_even (q * 100)) by (apply round_half_even_nonneg; lra).
  rewrite Z2N.id in Hval by exact H.
  exists q'. split; [exact Hread|].
  assert (Hround : (q' == round q 2)%Q).
  { rewrite Hval. unfold round. change (inject_Z (10 ^ Z.of_nat 2)) with 100%Q. reflexivity. }
  split; [exact Hround|]. split.
  - rewrite Hval. apply Qle_shift_div_l; [reflexivity|].
    rewrite Qmult_0_l. change 0%Q with (inject_Z 0). by rewrite <- Zle_Qle.
  - pose proof (round_half_even_near (q * 100)) as Hnear.
    rewrite Hval.
    apply Qabs_Qle_condition. apply Qabs_Qle_condition in Hnear.
    destruct Hnear as [H1 H2].
    set (x := inject_Z (round_half_even (q * 100))) in *.
    clearbody x. clear - H1 H2.
    unfold Qdiv. change (/ 100)%Q with (1 # 100)%Q. split; lra.
Qed.


(** ** The ratio of a record *)

Lemma inject_N_nonneg (n : N) : (0 <= inject_Z (Z.of_N n))%Q.
Proof. change 0%Q with (inject_Z 0). rewrite <- Zle_Qle. lia. Qed.

Lemma quotient_nonneg (a b : Z) : 0 <= a -> 0 < b -> (0 <= inject_Z a / inject_Z b)%Q.
Proof.
  intros Ha Hb. apply Qle_shift_div_l.
  - change 0%Q with (inject_Z 0). rewrite <- Zlt_Qlt. exact Hb.
  - rewrite Qmult_0_l. change 0%Q with (inject_Z 0). rewrite <- Zle_Qle. exact Ha.
Qed.

Lemma unsigned_decimal_nonneg s v : unsigned_decimal s = Some v -> (0 <= v)%Q.
Proof.
  unfold unsigned_decimal.
  assert (Hfrac : forall i f n,
    (0 <= inject_Z (Z.of_N i) + inject_Z (Z.of_N f) / inject_Z (10 ^ Z.of_nat n))%Q).
  { intros i f n. pose proof (inject_N_nonneg i).
    pose proof (quotient_nonneg (Z.of_N f) (10 ^ Z.of_nat n)) as Hq.
    assert (0 < 10 ^ Z.of_nat n) by (apply Z.pow_pos_nonneg; lia).
    specialize (Hq ltac:(lia) ltac:(assumption)). lra. }
  destruct (split_dot s) as [ip [fp|]].
  - destruct ip as [|c ip].
    + destruct fp as [|c' fp]; [discriminate|].
      destruct (digits ""), (digits (String c' fp)); try discriminate.
      intros [= <-]. apply Hfrac.
    + destruct (digits (String c ip)), (digits fp); try discriminate.
      intros [= <-]. apply Hfrac.
  - destruct ip as [|c ip]; [discriminate|].
    destruct (digits (String c ip)); [|discriminate].
    intros [= <-]. apply inject_N_nonneg.
Qed.

Lemma computed_ratio_nonneg kills deaths : (0 <= computed_ratio kills deaths)%Q.
Proof. unfold computed_ratio. apply quotient_nonneg; lia. Qed.

Lemma computed_ratio_no_deaths kills : (computed_ratio kills 0 == inject_Z (Z.of_N kills))%Q.
Proof. unfold computed_ratio. simpl. field. Qed.

Lemma to_dict_kd_ratio rank_table r :
  to_dict rank_table r !! "kd_ratio" = Some (PyStr (kd_ratio r)).
Proof. unfold to_dict. destruct (max_experience r); by simplify_map_eq. Qed.

Lemma to_dict_truthy rank_table r : truthy (Some (to_dict rank_table r)) = true.
Proof.
  simpl. apply bool_decide_eq_true. intros E.
  pose proof (to_dict_kd_ratio rank_table r) as H. rewrite E in H.
  by rewrite lookup_empty in H.
Qed.

(** The value a record's ratio is made from. *)
Lemma normalize_kd_ratio_value kills deaths raw :
  exists v,
    normalize_kd_ratio kills deaths raw = format_2f v
    /\ (0 <= v)%Q
    /\ v = match site_ratio raw with
           | Some reported => reported
           | None => computed_ratio kills deaths
           end.
Proof.
  unfold normalize_kd_ratio. destruct (site_ratio raw) as [v|] eqn:E.
  - exists v. repeat split.
    destruct raw as [text|]; [|discriminate]. simpl in E.
    by apply (unsigned_decimal_nonneg (strip text)).
  - exists (computed_ratio kills deaths). repeat split. apply computed_ratio_nonneg.
Qed.

Lemma kd_comparison_total p1_name p2_name d1 d2 k1 k2 q1 q2 :
  d1 !! "kd_ratio" = Some (PyStr k1) -> d2 !! "kd_ratio" = Some (PyStr k2) ->
  float_of_string k1 = Ok q1 -> float_of_string k2 = Ok q2 ->
  exists text, kd_comparison p1_name p2_name d1 d2 = Ok text.
Proof.
  intros H1 H2 F1 F2. unfold kd_comparison, get, getitem.
  rewrite H1, H2. simpl. rewrite F1. simpl. rewrite F2. simpl.
  destruct (Qle_bool q1 q2); simpl; [destruct (Qle_bool q2 q1); simpl|]; eauto.
Qed.

(** Two normalized records can always be compared on their ratios: the
    K/D block of the comparison embed raises nothing on them. *)
Lemma kd_comparison_of_records rank_table p1_name p2_name raw1 raw2 :
  exists text,
    kd_comparison p1_name p2_name
      (to_dict rank_table (normalize rank_table raw1))
      (to_dict rank_table (normalize rank_table raw2)) = Ok text.
Proof.
  destruct (normalize_kd_ratio_value (kills (normalize rank_table raw1))
              (deaths (normalize rank_table raw1)) (raw_kd_ratio raw1))
    as (v1 & Hf1 & Hv1 & _).
  destruct (normalize_kd_ratio_value (kills (normalize rank_table raw2))
              (deaths (normalize rank_table raw2)) (raw_kd_ratio raw2))
    as (v2 & Hf2 & Hv2 & _).
  destruct (float_of_format_2f v1 Hv1) as (q1 & Hq1 & _).
  destruct (float_of_format_2f v2 Hv2) as (q2 & Hq2 & _).
  apply (kd_comparison_total _ _ _ _ _ _ q1 q2
           (to_dict_kd_ratio _ _) (to_dict_kd_ratio _ _)).
  - change (kd_ratio (normalize rank_table raw1)) with
      (normalize_kd_ratio (kills (normalize rank_table raw1))
         (deaths (normalize rank_table raw1)) (raw_kd_ratio raw1)).
    by rewrite Hf1.
  - change (kd_ratio (normalize rank_table raw2)) with
      (normalize_kd_ratio (kills (normalize rank_table raw2))
         (deaths (normalize rank_table raw2)) (raw_kd_ratio raw2)).
    by rewrite Hf2.
Qed.

(** The fixture of the specification: 500 kills and 250 deaths. *)
Example kd_ratio_of_fixture :
  normalize_kd_ratio 500 250 None = "2.00"
  /\ normalize_kd_ratio 7 0 None = "7.00"
  /\ float_of_string "2.00" = Ok (inject_Z 2 + inject_Z 0 / inject_Z 100)%Q.
Proof. repeat split. Qed.

End RatioFacts.


(* ===================================================================== *)
(** * Further properties of the handlers *)
(* ===================================================================== *)

Module HandlerLaws.

Section Laws.

Variable scraper : string -> result (option (gmap string pyval)).
Variable format_exact_number : pyval -> result string.
Variable GOLD_BOX_EMOJI : string.
Variable render_player : gmap string pyval -> Q -> result Embed.
Variable format_duration : Q -> string.
Variable format_number : Z -> string.
Variable str_of_float : Q -> string.

#[local] Abbreviation player := (player_command_handler scraper render_player).
#[local] Abbreviation compare :=
  (compare_command_handler scraper format_exact_number GOLD_BOX_EMOJI).
#[local] Abbreviation botstats :=
  (botstats_command_handler format_duration format_number str_of_float).
#[local] Abbreviation handle :=
  (dispatch scraper format_exact_number GOLD_BOX_EMOJI render_player
     format_duration format_number str_of_float).

Ltac settle :=
  eexists; (split; [reflexivity|]); unfold effect, accounted; simpl;
  repeat split; eauto; solve [left; repeat split; lia | right; repeat split; lia].

Lemma player_effect username clk w :
  exists w', player username clk w = (Ok tt, w')
             /\ effect (PlayerCommand username clk) w w'.
Proof.
  unfold player_command_handler, await_get_player_data. run_monad.
  destruct (scraper (strip username)) as [data|e]; simpl; [|settle].
  destruct (found data) as [d|]; simpl; [|settle].
  destruct (render_player d (datetime_now clk)); simpl; settle.
Qed.

Lemma compare_effect player1 player2 clk w :
  exists w', compare player1 player2 clk w = (Ok tt, w')
             /\ effect (CompareCommand player1 player2 clk) w w'.
Proof.
  unfold compare_command_handler, gather_task. run_monad.
  unfold effect, lookups_of.
  destruct (String.eqb (lower (strip player1)) (lower (strip player2))); simpl.
  - eexists; (split; [reflexivity|]); unfold accounted; simpl.
    rewrite app_nil_r. repeat split; eauto. left. repeat split; lia.
  - destruct (found (exception_to_none (scraper (strip player1)))) as [d1|],
             (found (exception_to_none (scraper (strip player2)))) as [d2|]; simpl;
      try (eexists; (split; [reflexivity|]); unfold accounted; simpl;
           rewrite <- app_assoc; repeat split; eauto; left; repeat split; lia).
    destruct (_create_comparison_embed format_exact_number GOLD_BOX_EMOJI
                d1 d2 (datetime_now clk)); simpl;
      eexists; (split; [reflexivity|]); unfold accounted; simpl;
      rewrite <- app_assoc; repeat split; eauto;
      solve [left; repeat split; lia | right; repeat split; lia].
Qed.

Lemma botstats_effect env w :
  exists w', botstats env w = (Ok tt, w')
             /\ effect (BotstatsCommand env) w w'.
Proof.
  destruct (avg_scraping_latency_ok w) as (avg & Havg & _).
  destruct (success_rate_ok w) as (rate & Hrate & _).
  destruct (check_website_status_returns str_of_float (probe_start env)
              (probe_response env) (snd (incr_commands_processed w)))
    as (status & Hstatus).
  unfold botstats_command_handler.
  unfold mbind at 1, M_bind at 1, bind at 1. simpl.
  unfold mbind at 1, M_bind at 1, bind at 1. simpl.
  unfold avg_scraping_latency, success_rate in *. simpl.
  unfold mbind at 1, M_bind at 1, bind at 1, lift at 1. rewrite Havg.
  unfold mbind at 1, M_bind at 1, bind at 1, lift at 1. rewrite Hrate.
  unfold mbind at 1, M_bind at 1, bind at 1. simpl in Hstatus. rewrite Hstatus.
  eexists. split; [reflexivity|].
  unfold effect, accounted. simpl. rewrite app_nil_r.
  repeat split; eauto. left. repeat split; lia.
Qed.

Lemma handle_effect i w :
  exists w', handle i w = (Ok tt, w') /\ effect i w w'.
Proof.
  destruct i as [username clk|player1 player2 clk|env]; simpl.
  - apply player_effect.
  - apply compare_effect.
  - apply botstats_effect.
Qed.

Lemma serve_cons i todo w :
  serve scraper format_exact_number GOLD_BOX_EMOJI render_player
    format_duration format_number str_of_float w (i :: todo)
  = serve scraper format_exact_number GOLD_BOX_EMOJI render_player
      format_duration format_number str_of_float (snd (handle i w)) todo.
Proof. reflexivity. Qed.

Lemma healthy_step i w w' : effect i w w' -> healthy w -> healthy w'.
Proof.
  intros (_ & (Hcmd & Hacc) & _) (Hc & Hs & Hf & Hsum & Hzero).
  unfold healthy.
  destruct Hacc as [(Hs' & Hf' & Ht')|(Hf' & Hs' & Ht')].
  - rewrite Hs', Ht'. repeat split; try lia. exact Hzero.
  - repeat split; try lia.
Qed.

Lemma healthy_init now : healthy (init now).
Proof. unfold healthy. simpl. repeat split; try lia; reflexivity. Qed.

Lemma healthy_serve todo : forall w,
  healthy w ->
  healthy (serve scraper format_exact_number GOLD_BOX_EMOJI render_player
             format_duration format_number str_of_float w todo).
Proof.
  induction todo as [|i todo IH]; intros w Hw; [exact Hw|].
  rewrite serve_cons. apply IH.
  destruct (handle_effect i w) as (w' & Hrun & Heff).
  rewrite Hrun. simpl. exact (healthy_step i w w' Heff Hw).
Qed.

End Laws.

(** X3. One invocation accounts its scrapes on one side only: it either
    adds up to two failures and leaves the successes and the scraping time
    alone, or it adds one or two successes, no failure, and exactly the
    measured duration to the scraping time. *)
Theorem scrapes_are_accounted_on_one_side
    scraper format_exact_number GOLD_BOX_EMOJI render_player
    format_duration format_number str_of_float (i : Interaction) (w : World) :
  let w' := snd (dispatch scraper format_exact_number GOLD_BOX_EMOJI render_player
                   format_duration format_number str_of_float i w) in
  (scraping_successes w' = scraping_successes w
   /\ scraping_failures w <= scraping_failures w' <= scraping_failures w + 2
   /\ total_scraping_time w' = total_scraping_time w)
  \/ (scraping_failures w' = scraping_failures w
      /\ scraping_successes w < scraping_successes w' <= scraping_successes w + 2
      /\ total_scraping_time w' = (total_scraping_time w + elapsed i)%Q).
Proof.
  destruct (handle_effect scraper format_exact_number GOLD_BOX_EMOJI render_player
              format_duration format_number str_of_float i w)
    as (w' & Hrun & _ & (_ & Hacc) & _).
  simpl. rewrite Hrun. exact Hacc.
Qed.



End HandlerLaws.

Module StatisticsLaws.

Lemma round_half_even_le (q : Q) (n : Z) :
  (q <= inject_Z n)%Q -> round_half_even q <= n.
Proof.
  intros H. unfold round_half_even.
  pose proof (Qfloor_le q) as Hlo.
  assert (Hf : Qfloor q <= n).
  { apply Qfloor_resp_le in H. by rewrite Qfloor_Z in H. }
  assert (Hstrict : (inject_Z (Qfloor q) < q)%Q -> Qfloor q + 1 <= n).
  { intros Hlt. assert (Hq : (inject_Z (Qfloor q) < inject_Z n)%Q) by lra.
    rewrite <- Zlt_Qlt in Hq. lia. }
  destruct (Qcompare_spec (q - inject_Z (Qfloor q)) (1 # 2)) as [E|E|E].
  - destruct (Z.even (Qfloor q)); [exact Hf|]. apply Hstrict. lra.
  - exact Hf.
  - apply Hstrict. lra.
Qed.

Lemma ratio_between_0_and_1 (a b : Z) :
  0 <= a <= b -> 0 < b -> (0 <= inject_Z a / inject_Z b <= 1)%Q.
Proof.
  intros [Ha Hab] Hb.
  assert (Hb' : (0 < inject_Z b)%Q)
    by (change 0%Q with (inject_Z 0); rewrite <- Zlt_Qlt; exact Hb).
  split.
  - apply Qle_shift_div_l; [exact Hb'|]. rewrite Qmult_0_l.
    change 0%Q with (inject_Z 0). rewrite <- Zle_Qle. exact Ha.
  - apply Qle_shift_div_r; [exact Hb'|]. rewrite Qmult_1_l.
    rewrite <- Zle_Qle. exact Hab.
Qed.

Lemma round_bounds (q : Q) (ndigits : nat) (hi : Z) :
  (0 <= q)%Q -> (q <= inject_Z hi)%Q ->
  (0 <= round q ndigits <= inject_Z hi)%Q.
Proof.
  intros Hlo Hhi. unfold round.
  set (p := 10 ^ Z.of_nat ndigits).
  assert (Hp : 0 < p) by (apply Z.pow_pos_nonneg; lia).
  assert (Hp' : (0 < inject_Z p)%Q)
    by (change 0%Q with (inject_Z 0); rewrite <- Zlt_Qlt; exact Hp).
  assert (H0 : 0 <= round_half_even (q * inject_Z p)).
  { apply RatioFacts.round_half_even_nonneg. apply Qmult_le_0_compat; lra. }
  assert (H1 : round_half_even (q * inject_Z p) <= hi * p).
  { apply round_half_even_le. rewrite inject_Z_mult.
    apply Qmult_le_compat_r; lra. }
  split.
  - apply Qle_shift_div_l; [exact Hp'|]. rewrite Qmult_0_l.
    change 0%Q with (inject_Z 0). rewrite <- Zle_Qle. exact H0.
  - apply Qle_shift_div_r; [exact Hp'|]. rewrite <- inject_Z_mult.
    rewrite <- Zle_Qle. exact H1.
Qed.

Lemma success_rate_bounds (w : World) :
  0 <= scraping_successes w -> 0 <= scraping_failures w ->
  (scraping_successes w + scraping_failures w = 0 /\ success_rate w = Ok (NInt 0))
  \/ (0 < scraping_successes w + scraping_failures w
      /\ exists q, success_rate w = Ok (NFloat q) /\ (0 <= q <= 100)%Q).
Proof.
  intros Hs Hf. unfold success_rate.
  destruct (0 <? scraping_successes w + scraping_failures w) eqn:E.
  - apply Z.ltb_lt in E. right. split; [exact E|].
    rewrite (truediv_pos _ _ E). simpl. eexists. split; [reflexivity|].
    pose proof (ratio_between_0_and_1 (scraping_successes w)
                  (scraping_successes w + scraping_failures w)
                  ltac:(lia) E) as [Hlo Hhi].
    apply (round_bounds _ 1 100); [lra|].
    change (inject_Z 100) with 100%Q. lra.
  - apply Z.ltb_ge in E. left. split; [lia|reflexivity].
Qed.

Lemma avg_scraping_latency_bounds (w : World) :
  0 <= scraping_successes w -> (0 <= total_scraping_time w)%Q ->
  (scraping_successes w = 0 /\ avg_scraping_latency w = Ok (NInt 0))
  \/ (0 < scraping_successes w
      /\ exists q, avg_scraping_latency w = Ok (NFloat q) /\ (0 <= q)%Q).
Proof.
  intros Hs Ht. unfold avg_scraping_latency.
  destruct (0 <? scraping_successes w) eqn:E.
  - apply Z.ltb_lt in E. right. split; [exact E|].
    rewrite (truediv_pos _ _ E). simpl. eexists. split; [reflexivity|].
    assert (Hn : (0 < inject_Z (scraping_successes w))%Q)
      by (change 0%Q with (inject_Z 0); rewrite <- Zlt_Qlt; exact E).
    assert (Hq : (0 <= total_scraping_time w / inject_Z (scraping_successes w))%Q).
    { apply Qle_shift_div_l; [exact Hn|]. rewrite Qmult_0_l. exact Ht. }
    unfold round.
    set (p := 10 ^ Z.of_nat 2).
    apply Qle_shift_div_l; [reflexivity|]. rewrite Qmult_0_l.
    change 0%Q with (inject_Z 0). rewrite <- Zle_Qle.
    apply RatioFacts.round_half_even_nonneg.
    apply Qmult_le_0_compat; [|discriminate].
    apply Qmult_le_0_compat; [exact Hq|discriminate].
  - apply Z.ltb_ge in E. left. split; [lia|reflexivity].
Qed.

(** X5. In every state a bot reaches from [__init__], the success rate
    shown by [/botstats] is either the integer 0 (no scrape counted yet) or
    a float between 0 and 100. *)
Theorem success_rate_is_a_percentage
    scraper format_exact_number GOLD_BOX_EMOJI render_player
    format_duration format_number str_of_float (now : Q) (todo : list Interaction) :
  let w := serve scraper format_exact_number GOLD_BOX_EMOJI render_player
             format_duration format_number str_of_float (init now) todo in
  (scraping_successes w + scraping_failures w = 0 /\ success_rate w = Ok (NInt 0))
  \/ (0 < scraping_successes w + scraping_failures w
      /\ exists q, success_rate w = Ok (NFloat q) /\ (0 <= q <= 100)%Q).
Proof.
  intros w.
  destruct (HandlerLaws.healthy_serve scraper format_exact_number GOLD_BOX_EMOJI
              render_player format_duration format_number str_of_float todo (init now)
              (HandlerLaws.healthy_init now))
    as (_ & Hs & Hf & _).
  by apply success_rate_bounds.
Qed.

(** X6. As long as no handler measured a negative duration, the average
    scraping latency shown by [/botstats] is either the integer 0 (no
    success yet) or a non-negative float. *)
Theorem average_latency_is_not_negative
    scraper format_exact_number GOLD_BOX_EMOJI render_player
    format_duration format_number str_of_float (now : Q) (todo : list Interaction) :
  Forall (fun i => (0 <= elapsed i)%Q) todo ->
  let w := serve scraper format_exact_number GOLD_BOX_EMOJI render_player
             format_duration format_number str_of_float (init now) todo in
  (scraping_successes w = 0 /\ avg_scraping_latency w = Ok (NInt 0))
  \/ (0 < scraping_successes w
      /\ exists q, avg_scraping_latency w = Ok (NFloat q) /\ (0 <= q)%Q).
Proof.
  intros Hclock w.
  destruct (serve_counters scraper format_exact_number GOLD_BOX_EMOJI
              render_player format_duration format_number str_of_float todo (init now)
              Hclock)
    as (_ & Hs & _ & Ht).
  apply avg_scraping_latency_bounds; [exact Hs|exact Ht].
Qed.

Lemma average_latency_is_not_negative_witness :
  let d : gmap string pyval := {[ "username" := PyStr "Alpha" ]} in
  let scraper := fun _ : string => Ok (Some d) in
  let render := fun (_ : gmap string pyval) (_ : Q) => Ok (mkEmbed "Alpha" None 0 None [] None) in
  let todo := [PlayerCommand "Alpha" (mkClock 10 11 (25 # 2))] in
  let w := serve scraper (fun v => Ok (str_of v)) "G" render
             (fun _ => "") (fun _ => "") (fun _ => "") (init 0) todo in
  Forall (fun i => (0 <= elapsed i)%Q) todo
  /\ exists q, avg_scraping_latency w = Ok (NFloat q) /\ (0 <= q)%Q.
Proof.
  intros d scraper render todo w.
  assert (Hclock : Forall (fun i => (0 <= elapsed i)%Q) todo).
  { repeat constructor. vm_compute. discriminate. }
  split; [exact Hclock|].
  destruct (average_latency_is_not_negative scraper (fun v => Ok (str_of v)) "G" render
              (fun _ => "") (fun _ => "") (fun _ => "") 0 todo Hclock)
    as [(H0 & _)|(_ & Hq)].
  - exfalso. vm_compute in H0. discriminate.
  - exact Hq.
Defined.

End StatisticsLaws.

Module ReplyLaws.



End ReplyLaws.

Module ComparisonLaws.

(** ** Trimming a composed text *)

Lemma append_assoc (s t u : string) : (s +:+ t) +:+ u = s +:+ (t +:+ u).
Proof.
  induction s as [|c s IH]; [reflexivity|].
  change (String c ((s +:+ t) +:+ u) = String c (s +:+ (t +:+ u))).
  by rewrite IH.
Qed.

Lemma rstrip_ends m z :
  isspace z = false -> rstrip (m +:+ String z "") = m +:+ String z "".
Proof.
  intros Hz. induction m as [|c m IH].
  - simpl. by rewrite Hz.
  - change (String c m +:+ String z "") with (String c (m +:+ String z "")).
    simpl. rewrite IH. by destruct m.
Qed.

Lemma ends_append s t :
  (exists m z, t = m +:+ String z "" /\ isspace z = false) ->
  exists m z, s +:+ t = m +:+ String z "" /\ isspace z = false.
Proof.
  intros (m & z & -> & Hz). exists (s +:+ m), z.
  split; [by rewrite append_assoc|exact Hz].
Qed.

Lemma strip_framed a s :
  isspace a = false ->
  (exists m z, String a s = m +:+ String z "" /\ isspace z = false) ->
  strip (String a s) = String a s.
Proof.
  intros Ha (m & z & E & Hz). unfold strip. simpl lstrip. rewrite Ha.
  rewrite E. by apply rstrip_ends.
Qed.

Lemma rstrip_line_break s : rstrip (s +:+ nl) = rstrip s.
Proof.
  induction s as [|c s IH]; [reflexivity|].
  change (String c s +:+ nl) with (String c (s +:+ nl)).
  simpl. by rewrite IH.
Qed.

Lemma strip_line_break a s :
  isspace a = false ->
  (exists m z, String a s = m +:+ String z "" /\ isspace z = false) ->
  strip (String a s +:+ nl +:+ "") = String a s.
Proof.
  intros Ha (m & z & E & Hz).
  assert (Hnl : nl +:+ "" = nl) by reflexivity. rewrite Hnl.
  unfold strip. change (String a s +:+ nl) with (String a (s +:+ nl)).
  simpl lstrip. rewrite Ha.
  change (String a (s +:+ nl)) with (String a s +:+ nl).
  rewrite rstrip_line_break, E. by apply rstrip_ends.
Qed.

Lemma strip_starred body tail :
  (exists m z, tail = m +:+ String z "" /\ isspace z = false) ->
  strip (("**" +:+ body) +:+ nl +:+ tail) = ("**" +:+ body) +:+ nl +:+ tail.
Proof.
  intros Htail.
  change (("**" +:+ body) +:+ nl +:+ tail)
    with (String "*" (String "*" body +:+ nl +:+ tail)).
  apply strip_framed; [reflexivity|].
  change (String "*" (String "*" body +:+ nl +:+ tail))
    with (("**" +:+ body) +:+ nl +:+ tail).
  by do 2 apply ends_append.
Qed.

Lemma strip_tie shown :
  strip (("**Tie** (" +:+ shown +:+ ")") +:+ nl +:+ "") = "**Tie** (" +:+ shown +:+ ")".
Proof.
  change ("**Tie** (" +:+ shown +:+ ")")
    with (String "*" ("*Tie** (" +:+ shown +:+ ")")).
  apply strip_line_break; [reflexivity|].
  change (String "*" ("*Tie** (" +:+ shown +:+ ")"))
    with ("**Tie** (" +:+ shown +:+ ")").
  do 2 apply ends_append. by exists "", ")"%char.
Qed.

Lemma ends_line name shown :
  exists m z, name +:+ " (" +:+ shown +:+ ")" = m +:+ String z "" /\ isspace z = false.
Proof. do 3 apply ends_append. by exists "", ")"%char. Qed.

Lemma bind_ok {A B} (r : result A) (k : A -> result B) (b : B) :
  r ≫= k = Ok b -> exists a, r = Ok a /\ k a = Ok b.
Proof. destruct r as [a|e]; [eauto|discriminate]. Qed.

Lemma getitem_ok d key v : getitem d key = Ok v -> d !! key = Some v.
Proof. unfold getitem. destruct (d !! key); [by intros [= ->]|discriminate]. Qed.

Section Comparison.

Variable format_exact_number : pyval -> result string.
Variable GOLD_BOX_EMOJI : string.

#[local] Abbreviation compare_numbers := (number_comparison format_exact_number).

Lemma number_comparison_returns p1_name p2_name a b x y :
  (forall v, exists s, format_exact_number v = Ok s) ->
  as_number a = Some x -> as_number b = Some y ->
  exists text, compare_numbers p1_name p2_name a b = Ok text.
Proof.
  intros Hfmt Ha Hb. unfold number_comparison, gt. rewrite Ha, Hb.
  destruct (Hfmt a) as (f1 & Hf1). destruct (Hfmt b) as (f2 & Hf2).
  cbn [mbind result_bind rbind].
  destruct (y <? x); cbn [mbind result_bind rbind].
  - rewrite Hf1. cbn [mbind result_bind rbind]. rewrite Hf2. eauto.
  - destruct (x <? y); cbn [mbind result_bind rbind].
    + rewrite Hf2. cbn [mbind result_bind rbind]. rewrite Hf1. eauto.
    + rewrite Hf1. eauto.
Qed.


Lemma kd_comparison_returns p1_name p2_name d1 d2 v1 v2 q1 q2 :
  d1 !! "kd_ratio" = Some v1 -> d2 !! "kd_ratio" = Some v2 ->
  float v1 = Ok q1 -> float v2 = Ok q2 ->
  exists text, kd_comparison p1_name p2_name d1 d2 = Ok text.
Proof.
  intros H1 H2 F1 F2. unfold kd_comparison, get, getitem.
  rewrite H1, H2. simpl. rewrite F1. simpl. rewrite F2. simpl.
  destruct (Qle_bool q1 q2); simpl; [destruct (Qle_bool q2 q1); simpl|]; eauto.
Qed.


Lemma kd_comparison_needs_first p1_name p2_name d1 d2 text :
  kd_comparison p1_name p2_name d1 d2 = Ok text -> is_Some (d1 !! "kd_ratio").
Proof.
  unfold kd_comparison, get, getitem.
  destruct (d1 !! "kd_ratio") as [v1|]; [eauto|].
  destruct (float (default (PyStr "0.00") None)) as [q1|]; simpl; [|discriminate].
  destruct (float (default (PyStr "0.00") (d2 !! "kd_ratio"))) as [q2|]; simpl;
    [|discriminate].
  destruct (Qle_bool q1 q2); simpl; [|discriminate].
  destruct (Qle_bool q2 q1); simpl; [discriminate|].
  destruct (d2 !! "kd_ratio"); simpl; discriminate.
Qed.

Lemma player_details_renders p_name d r :
  (forall v, exists s, format_exact_number v = Ok s) ->
  d !! "rank" = Some r ->
  exists text, player_details format_exact_number p_name d = Ok text.
Proof.
  intros Hfmt Hr. unfold player_details, getitem. rewrite Hr. simpl.
  destruct (Hfmt (get d "kills" (PyInt 0))) as (k & ->). simpl.
  destruct (Hfmt (get d "deaths" (PyInt 0))) as (dd & ->). simpl. eauto.
Qed.

End Comparison.

(** X10. The Experience and Gold Boxes fields of the comparison: for two
    numbers the larger one's player is shown first in bold and the other
    on a second line, and for equal numbers the text is the single line
    "**Tie** (n)"; the surrounding [strip()] removes the line break of
    the tie and nothing else. *)
Theorem number_fields_name_the_larger_first
    format_exact_number (p1_name p2_name : string) (a b : pyval) (x y : Z)
    (f1 f2 : string) :
  as_number a = Some x -> as_number b = Some y ->
  format_exact_number a = Ok f1 -> format_exact_number b = Ok f2 ->
  number_comparison format_exact_number p1_name p2_name a b
  = Ok (if y <? x then
          ("**" +:+ p1_name +:+ "** (" +:+ f1 +:+ ")") +:+ nl
          +:+ (p2_name +:+ " (" +:+ f2 +:+ ")")
        else if x <? y then
          ("**" +:+ p2_name +:+ "** (" +:+ f2 +:+ ")") +:+ nl
          +:+ (p1_name +:+ " (" +:+ f1 +:+ ")")
        else "**Tie** (" +:+ f1 +:+ ")").
Proof.
  intros Ha Hb Hf1 Hf2. unfold number_comparison, gt.
  rewrite Ha, Hb. simpl.
  destruct (y <? x); simpl.
  - rewrite Hf1, Hf2. simpl. f_equal. apply strip_starred, ends_line.
  - destruct (x <? y); simpl.
    + rewrite Hf2, Hf1. simpl. f_equal. apply strip_starred, ends_line.
    + rewrite Hf1. simpl. f_equal. apply strip_tie.
Qed.

Lemma number_fields_name_the_larger_first_witness :
  number_comparison (fun v => Ok (str_of v)) "Alpha" "Beta" (PyInt 7) (PyInt 7)
  = Ok "**Tie** (7)".
Proof.
  rewrite (number_fields_name_the_larger_first (fun v => Ok (str_of v))
             "Alpha" "Beta" (PyInt 7) (PyInt 7) 7 7 "7" "7"
             eq_refl eq_refl eq_refl eq_refl).
  reflexivity.
Defined.

(** X11. The K/D field of two ratios stored as text is decided on the
    numbers [float] reads, not on the texts: two texts that denote the
    same number give the single line "**Tie** (...)" showing the first
    player's stored text, even when the texts differ, and the player whose
    number is the smaller one is never the one shown first in bold.
    [float] rounds a number to the nearest double and keeps the order of
    any two numbers, so that two different numbers close enough to round
    to one double give the tie line as well. *)
Theorem kd_field_is_decided_on_numbers
    (p1_name p2_name : string) (d1 d2 : gmap string pyval) (s1 s2 : string) (q1 q2 : Q) :
  d1 !! "kd_ratio" = Some (PyStr s1) -> d2 !! "kd_ratio" = Some (PyStr s2) ->
  float_of_string s1 = Ok q1 -> float_of_string s2 = Ok q2 ->
  let first1 := ("**" +:+ p1_name +:+ "** (" +:+ s1 +:+ ")") +:+ nl
                +:+ (p2_name +:+ " (" +:+ s2 +:+ ")") in
  let first2 := ("**" +:+ p2_name +:+ "** (" +:+ s2 +:+ ")") +:+ nl
                +:+ (p1_name +:+ " (" +:+ s1 +:+ ")") in
  let tie := "**Tie** (" +:+ s1 +:+ ")" in
  exists text,
    kd_comparison p1_name p2_name d1 d2 = Ok text
    /\ ((q1 == q2)%Q -> text = tie)
    /\ ((q2 < q1)%Q -> text = first1 \/ text = tie)
    /\ ((q1 < q2)%Q -> text = first2 \/ text = tie).
Proof.
  intros H1 H2 F1 F2 first1 first2 tie. unfold kd_comparison, get, getitem.
  rewrite H1, H2. simpl. rewrite F1. simpl. rewrite F2. simpl.
  destruct (Qcompare_spec q1 q2) as [E|E|E].
  - assert (Qle_bool q1 q2 = true) as -> by (apply Qle_bool_iff; rewrite E; apply Qle_refl).
    assert (Qle_bool q2 q1 = true) as -> by (apply Qle_bool_iff; rewrite E; apply Qle_refl).
    simpl. exists tie. split; [f_equal; apply strip_tie|]. auto.
  - assert (Qle_bool q1 q2 = true) as -> by (apply Qle_bool_iff; by apply Qlt_le_weak).
    assert (Qle_bool q2 q1 = false) as ->.
    { destruct (Qle_bool q2 q1) eqn:E'; [|reflexivity].
      apply Qle_bool_iff in E'. exfalso. by apply (Qlt_not_le _ _ E). }
    simpl. exists first2. split; [f_equal; apply strip_starred, ends_line|].
    repeat split; [| |by left]; intros E'; exfalso.
    + rewrite E' in E. by apply (Qlt_irrefl q2).
    + by apply (Qlt_irrefl q1), (Qlt_trans _ q2).
  - assert (Qle_bool q1 q2 = false) as ->.
    { destruct (Qle_bool q1 q2) eqn:E'; [|reflexivity].
      apply Qle_bool_iff in E'. exfalso. by apply (Qlt_not_le _ _ E). }
    simpl. exists first1. split; [f_equal; apply strip_starred, ends_line|].
    repeat split; [|by left|]; intros E'; exfalso.
    + rewrite E' in E. by apply (Qlt_irrefl q2).
    + by apply (Qlt_irrefl q1), (Qlt_trans _ q2).
Qed.

Lemma kd_field_is_decided_on_numbers_witness :
  let d1 : gmap string pyval := {[ "kd_ratio" := PyStr "10.00" ]} in
  let d3 : gmap string pyval := {[ "kd_ratio" := PyStr "10.0" ]} in
  String.eqb "10.00" "10.0" = false
  /\ kd_comparison "Alpha" "Gamma" d1 d3 = Ok "**Tie** (10.00)".
Proof.
  intros d1 d3. split; [reflexivity|].
  destruct (kd_field_is_decided_on_numbers "Alpha" "Gamma" d1 d3 "10.00" "10.0"
              (inject_Z 10 + inject_Z 0 / inject_Z 100)
              (inject_Z 10 + inject_Z 0 / inject_Z 10)
              eq_refl eq_refl eq_refl eq_refl)
    as (text & Hrun & Htie & _ & _).
  rewrite Hrun. f_equal. apply Htie. reflexivity.
Defined.

(** X12. Unless they tie, the Experience and Gold Boxes fields do not
    depend on the order in which the two players are given: with the
    names and the values swapped, the text for two different numbers is
    the same, faults of the formatter included. *)
Theorem number_fields_do_not_depend_on_player_order
    format_exact_number (p1_name p2_name : string) (a b : pyval) (x y : Z) :
  as_number a = Some x -> as_number b = Some y -> x <> y ->
  number_comparison format_exact_number p1_name p2_name a b
  = number_comparison format_exact_number p2_name p1_name b a.
Proof.
  intros Ha Hb Hxy. unfold number_comparison, gt. rewrite Ha, Hb. simpl.
  destruct (y <? x) eqn:E1, (x <? y) eqn:E2; simpl; try reflexivity.
  - apply Z.ltb_lt in E1, E2. lia.
  - apply Z.ltb_ge in E1, E2. lia.
Qed.

Lemma number_fields_do_not_depend_on_player_order_witness :
  number_comparison (fun v => Ok (str_of v)) "Alpha" "Beta" (PyInt 5) (PyInt 9)
  = number_comparison (fun v => Ok (str_of v)) "Beta" "Alpha" (PyInt 9) (PyInt 5).
Proof.
  apply (number_fields_do_not_depend_on_player_order (fun v => Ok (str_of v))
           "Alpha" "Beta" (PyInt 5) (PyInt 9) 5 9 eq_refl eq_refl).
  lia.
Defined.

(** X13. [_create_comparison_embed] returns an embed only if both records
    have a ['username'] and a ['rank'] and the first record has a
    ['kd_ratio']: the default of [get('kd_ratio', '0.00')] does not save a
    first record without that key, because its stored value is printed in
    every branch. *)
Theorem comparison_embed_needs_its_keys
    format_exact_number GOLD_BOX_EMOJI (d1 d2 : gmap string pyval) (now : Q) (e : Embed) :
  _create_comparison_embed format_exact_number GOLD_BOX_EMOJI d1 d2 now = Ok e ->
  is_Some (d1 !! "username") /\ is_Some (d2 !! "username")
  /\ is_Some (d1 !! "rank") /\ is_Some (d2 !! "rank")
  /\ is_Some (d1 !! "kd_ratio").
Proof.
  unfold _create_comparison_embed. intros H.
  apply bind_ok in H as (n1 & Hn1 & H).
  apply bind_ok in H as (n2 & Hn2 & H).
  apply bind_ok in H as (exp & _ & H).
  apply bind_ok in H as (kd & Hkd & H).
  apply bind_ok in H as (gold & _ & H).
  apply bind_ok in H as (p1 & Hp1 & H).
  apply bind_ok in H as (p2 & Hp2 & _).
  unfold player_details in Hp1, Hp2.
  apply bind_ok in Hp1 as (r1 & Hr1 & _).
  apply bind_ok in Hp2 as (r2 & Hr2 & _).
  apply getitem_ok in Hn1, Hn2, Hr1, Hr2.
  repeat split; eauto.
  by apply (kd_comparison_needs_first _ _ _ _ _ Hkd).
Qed.


End ComparisonLaws.

Module ReLaws.
Import Re.

#[local] Abbreviation chars := list_ascii_of_string.

Lemma span_digits_spec s :
  forall ds rest, span_digits s = (ds, rest) ->
    s = ds +:+ rest
    /\ Forall (fun c => isdigit c = true) (chars ds)
    /\ (forall c r, rest = String c r -> isdigit c = false).
Proof.
  induction s as [|c s IH]; intros ds rest; simpl.
  - intros [= <- <-]. repeat split; [constructor|discriminate].
  - destruct (isdigit c) eqn:Hc.
    + destruct (span_digits s) as [ds' rest'] eqn:E. intros [= <- <-].
      destruct (IH ds' rest' eq_refl) as (Hs & Hd & Hr).
      repeat split; [by rewrite Hs at 1|by constructor|exact Hr].
    + intros [= <- <-]. repeat split; [constructor|].
      by intros c' r [= <- _].
Qed.

Lemma span_digits_run ds c rest :
  Forall (fun d => isdigit d = true) (chars ds) -> isdigit c = false ->
  span_digits (ds +:+ String c rest) = (ds, String c rest).
Proof.
  intros Hd Hc. induction ds as [|d ds IH].
  - simpl. by rewrite Hc.
  - inversion Hd as [|? ? Hd0 Hds]; subst.
    change (String d ds +:+ String c rest) with (String d (ds +:+ String c rest)).
    simpl. by rewrite Hd0, (IH Hds).
Qed.

Lemma match_id_sound s id :
  match_id s = Some id ->
  id <> "" /\ Forall (fun c => isdigit c = true) (chars id)
  /\ exists post, s = id +:+ String ">" post.
Proof.
  unfold match_id. destruct (span_digits s) as [ds rest] eqn:E.
  destruct (span_digits_spec s ds rest E) as (Hs & Hd & _).
  destruct ds as [|d ds]; [discriminate|].
  destruct rest as [|c rest]; [discriminate|].
  destruct (Ascii.eqb_spec c ">") as [->|Hne].
  - intros [= <-]. repeat split; [discriminate|exact Hd|eauto].
  - intros H. exfalso.
    destruct c as [[] [] [] [] [] [] [] []]; try discriminate H. by apply Hne.
Qed.

Lemma match_id_complete id post :
  id <> "" -> Forall (fun c => isdigit c = true) (chars id) ->
  match_id (id +:+ String ">" post) = Some id.
Proof.
  intros Hne Hd. unfold match_id.
  rewrite (span_digits_run id ">" post Hd eq_refl).
  by destruct id.
Qed.

(** X15. [re.search(r':(\d+)>', s)] as the card uses it, on a text of
    ASCII characters: when it finds an id, the text really contains a
    colon, that non-empty run of digits and a [">"], and no such
    occurrence starts further left; when it finds nothing, the text
    contains no such occurrence at all. *)
Theorem search_finds_the_leftmost_id (s : string) :
  ascii_text s ->
  match search_id s with
  | Some id =>
      exists pre post,
        occurs s pre id post
        /\ forall pre' id' post', occurs s pre' id' post' ->
             (String.length pre <= String.length pre')%nat
  | None => forall pre id post, ~ occurs s pre id post
  end.
Proof.
  intros _. induction s as [|c s IH]; simpl.
  - intros pre id post (E & _). destruct pre; discriminate E.
  - assert (Htail : forall pre id post, occurs (String c s) pre id post ->
              (pre = "" /\ c = ":"%char /\ s = id +:+ String ">" post)
              \/ exists p, pre = String c p /\ occurs s p id post).
    { intros pre id post (E & Hid). destruct pre as [|a p].
      - left. change (String c s = String ":" (id +:+ String ">" post)) in E.
        injection E as Hc Hs. repeat split; assumption.
      - right. change (String a p +:+ String ":" (id +:+ String ">" post))
          with (String a (p +:+ String ":" (id +:+ String ">" post))) in E.
        injection E as Ha Hs. exists p. subst a. split; [reflexivity|].
        split; [exact Hs|exact Hid]. }
    destruct (Ascii.eqb_spec c ":") as [->|Hc].
    + destruct (match_id s) as [id|] eqn:Hm.
      * destruct (match_id_sound s id Hm) as (Hne & Hd & post & ->).
        exists "", post. split; [by repeat split|]. intros. simpl. lia.
      * assert (Hno : forall id post, s = id +:+ String ">" post -> id <> "" ->
                  Forall (fun c => isdigit c = true) (chars id) -> False).
        { intros id post -> Hne Hd. rewrite (match_id_complete id post Hne Hd) in Hm.
          discriminate. }
        destruct (search_id s) as [id|].
        -- destruct IH as (pre & post & (E & Hne & Hd) & Hleft).
           exists (String ":" pre), post. split.
           ++ repeat split; [by rewrite E at 1|exact Hne|exact Hd].
           ++ intros pre' id' post' Hocc.
              destruct (Htail _ _ _ Hocc) as [(_ & _ & E')|(p & -> & Hp)].
              ** exfalso. destruct Hocc as (_ & Hne' & Hd'). by apply (Hno id' post').
              ** simpl. specialize (Hleft _ _ _ Hp). lia.
        -- intros pre id post Hocc.
           destruct (Htail _ _ _ Hocc) as [(_ & _ & E')|(p & -> & Hp)].
           ++ destruct Hocc as (_ & Hne' & Hd'). by apply (Hno id post).
           ++ by apply (IH p id post).
    + destruct (search_id s) as [id|].
      * destruct IH as (pre & post & (E & Hne & Hd) & Hleft).
        exists (String c pre), post. split.
        -- repeat split; [by rewrite E at 1|exact Hne|exact Hd].
        -- intros pre' id' post' Hocc.
           destruct (Htail _ _ _ Hocc) as [(_ & Hc' & _)|(p & -> & Hp)];
             [contradiction|].
           simpl. specialize (Hleft _ _ _ Hp). lia.
      * intros pre id post Hocc.
        destruct (Htail _ _ _ Hocc) as [(_ & Hc' & _)|(p & -> & Hp)];
          [contradiction|].
        by apply (IH p id post).
Qed.

Lemma search_id_skip pre rest :
  Forall (fun c => c <> ":"%char) (chars pre) ->
  search_id (pre +:+ rest) = search_id rest.
Proof.
  induction pre as [|c pre IH]; intros H; [reflexivity|].
  inversion H as [|? ? Hc Hpre]; subst.
  change (String c pre +:+ rest) with (String c (pre +:+ rest)). simpl.
  destruct (Ascii.eqb_spec c ":"); [contradiction|]. by apply IH.
Qed.

Lemma span_digits_stops name rest :
  Forall (fun c => c <> ">"%char) (chars name) ->
  exists ds c0 r0,
    span_digits (name +:+ String ":" rest) = (ds, String c0 r0) /\ c0 <> ">"%char.
Proof.
  induction name as [|c name IH]; intros H.
  - exists "", ":"%char, rest. split; [reflexivity|discriminate].
  - inversion H as [|? ? Hc Hname]; subst.
    change (String c name +:+ String ":" rest)
      with (String c (name +:+ String ":" rest)). simpl.
    destruct (isdigit c).
    + destruct (IH Hname) as (ds & c0 & r0 & -> & Hc0). eauto.
    + eauto.
Qed.

Lemma match_id_blocked name rest :
  Forall (fun c => c <> ">"%char) (chars name) ->
  match_id (name +:+ String ":" rest) = None.
Proof.
  intros H. unfold match_id.
  destruct (span_digits_stops name rest H) as (ds & c0 & r0 & -> & Hc0).
  destruct ds as [|d ds]; [reflexivity|].
  destruct (Ascii.eqb_spec c0 ">") as [->|Hne]; [contradiction|].
  destruct c0 as [[] [] [] [] [] [] [] []]; try reflexivity. contradiction.
Qed.

(** The id of a custom emoji [<:name:id>] (or [<a:name:id>]). *)
Lemma search_id_custom_emoji lead name id post :
  Forall (fun c => c <> ":"%char) (chars lead) ->
  Forall (fun c => c <> ":"%char /\ c <> ">"%char) (chars name) ->
  id <> "" -> Forall (fun c => isdigit c = true) (chars id) ->
  search_id (lead +:+ String ":" (name +:+ String ":" (id +:+ String ">" post)))
  = Some id.
Proof.
  intros Hlead Hname Hne Hd.
  rewrite (search_id_skip lead _ Hlead). simpl.
  rewrite match_id_blocked
    by (eapply List.Forall_impl; [|exact Hname]; by intros c [_ Hc]).
  rewrite search_id_skip
    by (eapply List.Forall_impl; [|exact Hname]; by intros c [Hc _]).
  simpl. by rewrite (match_id_complete id post Hne Hd).
Qed.

End ReLaws.

Lemma search_finds_the_leftmost_id_witness :
  ascii_text "<:sergeant:123456>"
  /\ Re.occurs "<:sergeant:123456>" "<:sergeant" "123456" ""
  /\ Re.search_id "<:sergeant:123456>" = Some "123456".
Proof.
  assert (Hascii : ascii_text "<:sergeant:123456>") by (repeat constructor).
  assert (Hocc : Re.occurs "<:sergeant:123456>" "<:sergeant" "123456" "").
  { split; [reflexivity|]. split; [discriminate|]. repeat constructor. }
  split; [exact Hascii|]. split; [exact Hocc|].
  pose proof (ReLaws.search_finds_the_leftmost_id "<:sergeant:123456>" Hascii) as H.
  destruct (Re.search_id "<:sergeant:123456>") as [id|] eqn:E.
  - vm_compute in E. symmetry. exact E.
  - exfalso. exact (H _ _ _ Hocc).
Defined.

Module CardLaws.

Lemma entry_of_ok d key e : entry_of d key = Ok e -> d !! key = Some e.
Proof. unfold entry_of. destruct (d !! key); [by intros [= ->]|discriminate]. Qed.

Lemma entry_of_some d key e : d !! key = Some e -> entry_of d key = Ok e.
Proof. unfold entry_of. by intros ->. Qed.

Section Card.

Variable get_rank_emoji : entry -> result string.
Variable format_exact_number : entry -> result string.
Variable RTANKS_BASE_URL : string.
Variable PREMIUM_EMOJI : string.
Variable GOLD_BOX_EMOJI : string.
Variable repr_slots : gmap string (list string) -> string.

#[local] Abbreviation render :=
  (_create_player_embed get_rank_emoji format_exact_number RTANKS_BASE_URL
     PREMIUM_EMOJI GOLD_BOX_EMOJI repr_slots).
#[local] Abbreviation shown := (entry_str repr_slots).

Lemma exp_display_needs d text :
  exp_display format_exact_number d = Ok text -> is_Some (d !! "experience").
Proof.
  unfold exp_display. intros H.
  assert (Hcur : forall k, (entry_of d "experience" ≫= k) = Ok text ->
            is_Some (d !! "experience")).
  { intros k Hk. apply ComparisonLaws.bind_ok in Hk as (cur & Hcur & _).
    apply entry_of_ok in Hcur. eauto. }
  destruct (d !! "max_experience") as [m|]; [destruct (entry_truthy m)|];
    by apply Hcur in H.
Qed.

Lemma combat_stats_needs d text :
  combat_stats format_exact_number repr_slots d = Ok text ->
  is_Some (d !! "kills") /\ is_Some (d !! "deaths") /\ is_Some (d !! "kd_ratio").
Proof.
  unfold combat_stats. intros H.
  apply ComparisonLaws.bind_ok in H as (kills & Hk & H).
  apply ComparisonLaws.bind_ok in H as (k & _ & H).
  apply ComparisonLaws.bind_ok in H as (deaths & Hd & H).
  apply ComparisonLaws.bind_ok in H as (dd & _ & H).
  apply ComparisonLaws.bind_ok in H as (kd & Hkd & _).
  apply entry_of_ok in Hk, Hd, Hkd. eauto.
Qed.

Lemma other_stats_needs d text :
  other_stats GOLD_BOX_EMOJI repr_slots d = Ok text ->
  is_Some (d !! "gold_boxes") /\ is_Some (d !! "group").
Proof.
  unfold other_stats. intros H.
  apply ComparisonLaws.bind_ok in H as (gold & Hg & H).
  apply ComparisonLaws.bind_ok in H as (grp & Hgrp & _).
  apply entry_of_ok in Hg, Hgrp. eauto.
Qed.

(** The text of the equipment field for a dictionary of name lists. *)
Lemma equipment_text_slots slots :
  equipment_text (Slots slots)
  = Ok ((match default [] (slots !! "turrets") with
         | [] => ""
         | _ :: _ => "**Turrets:** " +:+ join_comma (default [] (slots !! "turrets")) +:+ nl
         end)
        +:+ (match default [] (slots !! "hulls") with
             | [] => ""
             | _ :: _ => "**Hulls:** " +:+ join_comma (default [] (slots !! "hulls"))
             end)).
Proof.
  unfold equipment_text. simpl.
  destruct (default [] (slots !! "turrets")), (default [] (slots !! "hulls"));
    try reflexivity.
  set (t := "**Turrets:** " +:+ _ +:+ nl).
  f_equal. clearbody t. induction t as [|c t IH]; [reflexivity|].
  change (String c t +:+ "") with (String c (t +:+ "")). by rewrite <- IH.
Qed.

Lemma card_inversion d now c :
  render d now = Ok c ->
  exists online name rank emoji exp premium combat other equipment extra,
    d !! "is_online" = Some online
    /\ d !! "username" = Some name
    /\ d !! "rank" = Some rank
    /\ get_rank_emoji rank = Ok emoji
    /\ exp_display format_exact_number d = Ok exp
    /\ d !! "premium" = Some premium
    /\ combat_stats format_exact_number repr_slots d = Ok combat
    /\ other_stats GOLD_BOX_EMOJI repr_slots d = Ok other
    /\ d !! "equipment" = Some equipment
    /\ (if entry_truthy equipment
        then exists text,
               equipment_text equipment = Ok text
               /\ extra = if String.eqb text "" then []
                          else [mkField "Equipment" text false]
        else extra = [])
    /\ c = mkCard
             (mkEmbed (shown name)
                (Some ("**Activity:** "
                       +:+ if entry_truthy online then "Online" else "Offline"))
                (if entry_truthy online then 0x00ff00 else 0x808080)
                (Some now)
                ([mkField "Rank" ("**" +:+ shown rank +:+ "**") true;
                  mkField "Experience" exp true;
                  mkField "Premium"
                    (PREMIUM_EMOJI +:+ " "
                     +:+ if entry_truthy premium then "Yes" else "No") true;
                  mkField "Combat Stats" combat true;
                  mkField "Other Stats" other true] ++ extra)
                (Some ("Data from ratings.ranked-rtanks.online", None)))
             (RTANKS_BASE_URL +:+ "/user/" +:+ shown name)
             (emoji_thumbnail emoji).
Proof.
  unfold _create_player_embed. intros H.
  apply ComparisonLaws.bind_ok in H as (online & Honline & H).
  apply ComparisonLaws.bind_ok in H as (name & Hname & H).
  apply ComparisonLaws.bind_ok in H as (rank & Hrank & H).
  apply ComparisonLaws.bind_ok in H as (emoji & Hemoji & H).
  apply ComparisonLaws.bind_ok in H as (exp & Hexp & H).
  apply ComparisonLaws.bind_ok in H as (premium & Hpremium & H).
  apply ComparisonLaws.bind_ok in H as (combat & Hcombat & H).
  apply ComparisonLaws.bind_ok in H as (other & Hother & H).
  apply ComparisonLaws.bind_ok in H as (equipment & Hequipment & H).
  apply ComparisonLaws.bind_ok in H as (embed & Hembed & H).
  apply entry_of_ok in Honline, Hname, Hrank, Hpremium, Hequipment.
  exists online, name, rank, emoji, exp, premium, combat, other, equipment.
  destruct (entry_truthy equipment) eqn:Htruthy.
  - apply ComparisonLaws.bind_ok in Hembed as (text & Htext & Hembed).
    exists (if String.eqb text "" then [] else [mkField "Equipment" text false]).
    repeat (split; [assumption|]). split; [eauto|].
    injection Hembed as <-. injection H as <-.
    destruct (emoji_thumbnail emoji); destruct (String.eqb text ""); reflexivity.
  - exists []. repeat (split; [assumption|]). split; [reflexivity|].
    injection Hembed as <-. injection H as <-.
    destruct (emoji_thumbnail emoji); reflexivity.
Qed.

Lemma exp_display_renders d cur :
  (exists s, format_exact_number cur = Ok s) ->
  (forall m, d !! "max_experience" = Some m -> exists s, format_exact_number m = Ok s) ->
  d !! "experience" = Some cur ->
  exists text, exp_display format_exact_number d = Ok text.
Proof.
  intros (f1 & Hf1) Hmax Hcur. unfold exp_display. rewrite (entry_of_some _ _ _ Hcur).
  destruct (d !! "max_experience") as [m|] eqn:Hm; [destruct (entry_truthy m)|];
    cbn [mbind result_bind rbind]; rewrite Hf1; eauto.
  destruct (Hmax m eq_refl) as (f2 & Hf2).
  cbn [mbind result_bind rbind]. rewrite Hf2. eauto.
Qed.

End Card.

Lemma search_id_no_colon s :
  Forall (fun c => c <> ":"%char) (list_ascii_of_string s) -> Re.search_id s = None.
Proof.
  induction s as [|c s IH]; intros H; [reflexivity|].
  inversion H as [|? ? Hc Hs]; subst. simpl.
  destruct (Ascii.eqb_spec c ":"); [contradiction|]. by apply IH.
Qed.

(** X16. [_create_player_embed] returns a card only for a dictionary
    that has all of ['is_online'], ['username'], ['rank'], ['experience'],
    ['premium'], ['kills'], ['deaths'], ['kd_ratio'], ['gold_boxes'],
    ['group'] and ['equipment']: a record lacking any of them makes it
    raise. *)
Theorem card_needs_every_key
    get_rank_emoji format_exact_number RTANKS_BASE_URL PREMIUM_EMOJI GOLD_BOX_EMOJI
    repr_slots (player_data : gmap string entry) (now : Q) (c : Card) :
  _create_player_embed get_rank_emoji format_exact_number RTANKS_BASE_URL
    PREMIUM_EMOJI GOLD_BOX_EMOJI repr_slots player_data now = Ok c ->
  Forall (fun key => is_Some (player_data !! key))
    ["is_online"; "username"; "rank"; "experience"; "premium"; "kills";
     "deaths"; "kd_ratio"; "gold_boxes"; "group"; "equipment"].
Proof.
  intros H.
  destruct (card_inversion _ _ _ _ _ _ _ _ _ H)
    as (online & name & rank & emoji & exp & premium & combat & other & equipment
        & extra & Honline & Hname & Hrank & _ & Hexp & Hpremium & Hcombat & Hother
        & Hequipment & _).
  apply exp_display_needs in Hexp.
  apply combat_stats_needs in Hcombat as (Hk & Hd & Hkd).
  apply other_stats_needs in Hother as (Hg & Hgrp).
  repeat constructor; eauto.
Qed.

(** X17. A complete record is always rendered: when the eleven keys are
    present, the ['equipment'] entry is a dictionary of name lists, and
    neither [get_rank_emoji] on the rank nor the number formatter on the
    experience, the kills and the deaths raises, [_create_player_embed]
    returns a card; ['max_experience'] may be present or not. *)
Theorem card_of_a_complete_record
    get_rank_emoji format_exact_number RTANKS_BASE_URL PREMIUM_EMOJI GOLD_BOX_EMOJI
    repr_slots (player_data : gmap string entry) (now : Q)
    (online name rank cur premium kills deaths kd gold grp : entry)
    (emoji : string) (slots : gmap string (list string)) :
  (forall key e, key ∈ ["experience"; "max_experience"; "kills"; "deaths"] ->
     player_data !! key = Some e -> exists s, format_exact_number e = Ok s) ->
  player_data !! "is_online" = Some online ->
  player_data !! "username" = Some name ->
  player_data !! "rank" = Some rank ->
  get_rank_emoji rank = Ok emoji ->
  player_data !! "experience" = Some cur ->
  player_data !! "premium" = Some premium ->
  player_data !! "kills" = Some kills ->
  player_data !! "deaths" = Some deaths ->
  player_data !! "kd_ratio" = Some kd ->
  player_data !! "gold_boxes" = Some gold ->
  player_data !! "group" = Some grp ->
  player_data !! "equipment" = Some (Slots slots) ->
  exists c,
    _create_player_embed get_rank_emoji format_exact_number RTANKS_BASE_URL
      PREMIUM_EMOJI GOLD_BOX_EMOJI repr_slots player_data now = Ok c.
Proof.
  intros Hfmt Honline Hname Hrank Hemoji Hcur Hpremium Hkills Hdeaths Hkd
    Hgold Hgrp Hequipment.
  set (d := player_data) in *.
  assert (Hin : forall key, In key ["experience"; "max_experience"; "kills"; "deaths"] ->
            key ∈ ["experience"; "max_experience"; "kills"; "deaths"])
    by (intros key; apply list_elem_of_In).
  destruct (exp_display_renders format_exact_number d cur) as (exp & Hexp); [| |exact Hcur|].
  { apply (Hfmt "experience"); [apply Hin; simpl; tauto|exact Hcur]. }
  { intros m Hm. apply (Hfmt "max_experience"); [apply Hin; simpl; tauto|exact Hm]. }
  destruct (Hfmt "kills" kills ltac:(apply Hin; simpl; tauto) Hkills) as (k & Hk).
  destruct (Hfmt "deaths" deaths ltac:(apply Hin; simpl; tauto) Hdeaths) as (dd & Hdd).
  unfold _create_player_embed, combat_stats, other_stats.
  rewrite (entry_of_some _ _ _ Honline), (entry_of_some _ _ _ Hname),
    (entry_of_some _ _ _ Hrank), (entry_of_some _ _ _ Hpremium),
    (entry_of_some _ _ _ Hkills), (entry_of_some _ _ _ Hdeaths),
    (entry_of_some _ _ _ Hkd), (entry_of_some _ _ _ Hgold),
    (entry_of_some _ _ _ Hgrp), (entry_of_some _ _ _ Hequipment).
  cbn [mbind result_bind rbind]. rewrite Hemoji.
  cbn [mbind result_bind rbind]. rewrite Hexp.
  cbn [mbind result_bind rbind]. rewrite Hk.
  cbn [mbind result_bind rbind]. rewrite Hdd.
  cbn [mbind result_bind rbind]. rewrite equipment_text_slots.
  destruct (entry_truthy (Slots slots)); cbn [mbind result_bind rbind]; eauto.
Qed.

(** X18. The look of a card follows the record: its title is the
    username and its link is the profile page [/user/<username>] under
    the base URL; an online player gets the green colour and the line
    "Activity: Online", any other value of ['is_online'] the grey colour
    and "Offline"; the card is stamped with the given time and carries the
    data-source footer. *)
Theorem card_shows_name_and_activity
    get_rank_emoji format_exact_number RTANKS_BASE_URL PREMIUM_EMOJI GOLD_BOX_EMOJI
    repr_slots (player_data : gmap string entry) (now : Q) (c : Card)
    (online name : entry) :
  _create_player_embed get_rank_emoji format_exact_number RTANKS_BASE_URL
    PREMIUM_EMOJI GOLD_BOX_EMOJI repr_slots player_data now = Ok c ->
  player_data !! "is_online" = Some online ->
  player_data !! "username" = Some name ->
  title (card_embed c) = entry_str repr_slots name
  /\ card_url c = RTANKS_BASE_URL +:+ "/user/" +:+ entry_str repr_slots name
  /\ description (card_embed c)
     = Some (if entry_truthy online then "**Activity:** Online"
             else "**Activity:** Offline")
  /\ color (card_embed c) = (if entry_truthy online then 0x00ff00 else 0x808080)
  /\ timestamp (card_embed c) = Some now
  /\ footer (card_embed c) = Some ("Data from ratings.ranked-rtanks.online", None).
Proof.
  intros H Honline Hname.
  destruct (card_inversion _ _ _ _ _ _ _ _ _ H)
    as (online' & name' & rank & emoji & exp & premium & combat & other & equipment
        & extra & Honline' & Hname' & _ & _ & _ & _ & _ & _ & _ & _ & ->).
  rewrite Honline in Honline'. injection Honline' as <-.
  rewrite Hname in Hname'. injection Hname' as <-.
  simpl. repeat split. by destruct (entry_truthy online).
Qed.

(** X19. The thumbnail of a card is taken from the rank emoji: for a
    custom emoji [<:name:id>] or [<a:name:id>] it is the CDN address of
    [id] as a PNG, and for an emoji text without any colon the card has no
    thumbnail. *)
Theorem card_thumbnail_is_the_rank_emoji
    get_rank_emoji format_exact_number RTANKS_BASE_URL PREMIUM_EMOJI GOLD_BOX_EMOJI
    repr_slots (player_data : gmap string entry) (now : Q) (c : Card)
    (rank : entry) (emoji : string) :
  _create_player_embed get_rank_emoji format_exact_number RTANKS_BASE_URL
    PREMIUM_EMOJI GOLD_BOX_EMOJI repr_slots player_data now = Ok c ->
  player_data !! "rank" = Some rank ->
  get_rank_emoji rank = Ok emoji ->
  (forall lead name id,
      emoji = lead +:+ String ":" (name +:+ String ":" (id +:+ ">")) ->
      Forall (fun c => c <> ":"%char) (list_ascii_of_string lead) ->
      Forall (fun c => c <> ":"%char /\ c <> ">"%char) (list_ascii_of_string name) ->
      id <> "" -> Forall (fun c => Re.isdigit c = true) (list_ascii_of_string id) ->
      card_thumbnail c
      = Some ("https://cdn.discordapp.com/emojis/" +:+ id +:+ ".png"))
  /\ (Forall (fun c => c <> ":"%char) (list_ascii_of_string emoji) ->
      card_thumbnail c = None).
Proof.
  intros H Hrank Hemoji.
  destruct (card_inversion _ _ _ _ _ _ _ _ _ H)
    as (online & name' & rank' & emoji' & exp & premium & combat & other & equipment
        & extra & _ & _ & Hrank' & Hemoji' & _ & _ & _ & _ & _ & _ & ->).
  rewrite Hrank in Hrank'. injection Hrank' as <-.
  rewrite Hemoji in Hemoji'. injection Hemoji' as <-.
  simpl. unfold emoji_thumbnail. split.
  - intros lead name id -> Hlead Hname Hne Hd.
    by rewrite (ReLaws.search_id_custom_emoji lead name id "" Hlead Hname Hne Hd).
  - intros Hplain. by rewrite (search_id_no_colon emoji Hplain).
Qed.

(** X20. The sixth field of a card: for an ['equipment'] dictionary the
    card has the five fields Rank, Experience, Premium, Combat Stats and
    Other Stats, followed by the field Equipment exactly when the turrets
    or the hulls list is not empty. That field lists the turrets on one
    line and the hulls on the next, each joined by commas, and is not
    inline; the turrets line keeps its line break even when there is no
    hulls line. *)
Theorem card_lists_the_equipment
    get_rank_emoji format_exact_number RTANKS_BASE_URL PREMIUM_EMOJI GOLD_BOX_EMOJI
    repr_slots (player_data : gmap string entry) (now : Q) (c : Card)
    (slots : gmap string (list string)) :
  _create_player_embed get_rank_emoji format_exact_number RTANKS_BASE_URL
    PREMIUM_EMOJI GOLD_BOX_EMOJI repr_slots player_data now = Ok c ->
  player_data !! "equipment" = Some (Slots slots) ->
  let turrets := default [] (slots !! "turrets") in
  let hulls := default [] (slots !! "hulls") in
  let text :=
    (match turrets with
     | [] => ""
     | _ :: _ => "**Turrets:** " +:+ join_comma turrets +:+ nl
     end)
    +:+ (match hulls with
         | [] => ""
         | _ :: _ => "**Hulls:** " +:+ join_comma hulls
         end) in
  map name (fields (card_embed c))
  = ["Rank"; "Experience"; "Premium"; "Combat Stats"; "Other Stats"]
    ++ (match turrets, hulls with [], [] => [] | _, _ => ["Equipment"] end)
  /\ match turrets, hulls with
     | [], [] => True
     | _, _ => last (fields (card_embed c)) = Some (mkField "Equipment" text false)
     end.
Proof.
  intros H Hequipment turrets hulls text.
  destruct (card_inversion _ _ _ _ _ _ _ _ _ H)
    as (online & name' & rank' & emoji' & exp & premium & combat & other & equipment
        & extra & _ & _ & _ & _ & _ & _ & _ & _ & Hequipment' & Hextra & ->).
  rewrite Hequipment in Hequipment'. injection Hequipment' as <-.
  assert (Hempty : slots = ∅ -> turrets = [] /\ hulls = []).
  { intros ->. subst turrets hulls. by rewrite !lookup_empty. }
  destruct (entry_truthy (Slots slots)) eqn:Htruthy.
  - destruct Hextra as (text' & Htext & ->).
    rewrite equipment_text_slots in Htext. injection Htext as <-.
    fold turrets hulls. subst text.
    destruct turrets, hulls; simpl; split; reflexivity || exact I.
  - subst extra. simpl in Htruthy. apply bool_decide_eq_false in Htruthy.
    destruct (Hempty ltac:(by apply dec_stable)) as [-> ->].
    simpl. split; [reflexivity|exact I].
Qed.

End CardLaws.

(* ===================================================================== *)
(** * The properties at work on the sample records *)
(* ===================================================================== *)

Module Samples.

#[local] Abbreviation render_alpha :=
  (_create_player_embed sergeant_emoji plain_entry
     "https://ratings.ranked-rtanks.online" "P" "G" (fun _ => "")
     alpha_record 0).

#[local] Abbreviation compare_alpha_beta :=
  (_create_comparison_embed plain_number "G" alpha_scalars beta_scalars 0).

Lemma plain_number_total : forall v, exists s, plain_number v = Ok s.
Proof. intros v. by eexists. Qed.

Lemma render_alpha_ok : exists c, render_alpha = Ok c.
Proof. eexists. vm_compute. reflexivity. Qed.

Lemma compare_alpha_beta_ok : exists e, compare_alpha_beta = Ok e.
Proof. eexists. vm_compute. reflexivity. Qed.

Lemma sample_not_empty (d : gmap string pyval) v : d !! "username" = Some v -> d <> ∅.
Proof. intros H E. rewrite E in H. discriminate. Qed.

End Samples.

Lemma comparison_embed_needs_its_keys_witness :
  exists e,
    _create_comparison_embed plain_number "G" alpha_scalars beta_scalars 0 = Ok e
    /\ is_Some (alpha_scalars !! "kd_ratio")
    /\ is_Some (beta_scalars !! "rank").
Proof.
  destruct Samples.compare_alpha_beta_ok as (e & He).
  exists e. split; [exact He|].
  destruct (ComparisonLaws.comparison_embed_needs_its_keys plain_number "G"
              alpha_scalars beta_scalars 0 e He)
    as (_ & _ & _ & Hrank & Hkd).
  split; [exact Hkd|exact Hrank].
Defined.


Lemma card_needs_every_key_witness :
  exists c,
    _create_player_embed sergeant_emoji plain_entry
      "https://ratings.ranked-rtanks.online" "P" "G" (fun _ => "") alpha_record 0
    = Ok c
    /\ is_Some (alpha_record !! "is_online").
Proof.
  destruct Samples.render_alpha_ok as (c & Hc).
  exists c. split; [exact Hc|].
  pose proof (CardLaws.card_needs_every_key _ _ _ _ _ _ _ _ _ Hc) as Hkeys.
  by inversion Hkeys.
Defined.

Lemma card_of_a_complete_record_witness :
  exists c,
    _create_player_embed sergeant_emoji plain_entry
      "https://ratings.ranked-rtanks.online" "P" "G" (fun _ => "") alpha_record 0
    = Ok c.
Proof.
  apply (CardLaws.card_of_a_complete_record sergeant_emoji plain_entry
           "https://ratings.ranked-rtanks.online" "P" "G" (fun _ => "")
           alpha_record 0
           (Scalar (PyBool true)) (Scalar (PyStr "Alpha")) (Scalar (PyStr "Sergeant"))
           (Scalar (PyInt 105613)) (Scalar (PyBool true)) (Scalar (PyInt 500))
           (Scalar (PyInt 250)) (Scalar (PyStr "2.00")) (Scalar (PyInt 12))
           (Scalar (PyStr "")) "<:sergeant:123456>"
           (<["turrets" := ["Smoky M2"; "Twins"]]> (<["hulls" := ["Hornet"]]> ∅)));
    try reflexivity.
  intros key e Hkey Hlookup.
  assert (Hscalar : exists v, e = Scalar v).
  { repeat (apply elem_of_cons in Hkey as [->|Hkey];
            [vm_compute in Hlookup; injection Hlookup as <-; eauto|]).
    by apply elem_of_nil in Hkey. }
  destruct Hscalar as (v & ->). by eexists.
Defined.

Lemma card_shows_name_and_activity_witness :
  exists c,
    _create_player_embed sergeant_emoji plain_entry
      "https://ratings.ranked-rtanks.online" "P" "G" (fun _ => "") alpha_record 0
    = Ok c
    /\ title (card_embed c) = "Alpha"
    /\ card_url c = "https://ratings.ranked-rtanks.online/user/Alpha"
    /\ color (card_embed c) = 0x00ff00.
Proof.
  destruct Samples.render_alpha_ok as (c & Hc).
  exists c. split; [exact Hc|].
  destruct (CardLaws.card_shows_name_and_activity _ _ _ _ _ _ _ _ _
              (Scalar (PyBool true)) (Scalar (PyStr "Alpha")) Hc eq_refl eq_refl)
    as (Htitle & Hurl & _ & Hcolor & _).
  split; [exact Htitle|]. split; [exact Hurl|exact Hcolor].
Defined.

Lemma card_thumbnail_is_the_rank_emoji_witness :
  exists c,
    _create_player_embed sergeant_emoji plain_entry
      "https://ratings.ranked-rtanks.online" "P" "G" (fun _ => "") alpha_record 0
    = Ok c
    /\ card_thumbnail c = Some "https://cdn.discordapp.com/emojis/123456.png".
Proof.
  destruct Samples.render_alpha_ok as (c & Hc).
  exists c. split; [exact Hc|].
  destruct (CardLaws.card_thumbnail_is_the_rank_emoji _ _ _ _ _ _ _ _ _
              (Scalar (PyStr "Sergeant")) "<:sergeant:123456>" Hc eq_refl eq_refl)
    as (Hcustom & _).
  apply (Hcustom "<" "sergeant" "123456"); try reflexivity.
  - repeat constructor; discriminate.
  - repeat constructor; discriminate.
  - discriminate.
  - repeat constructor.
Defined.

Lemma card_lists_the_equipment_witness :
  exists c,
    _create_player_embed sergeant_emoji plain_entry
      "https://ratings.ranked-rtanks.online" "P" "G" (fun _ => "") alpha_record 0
    = Ok c
    /\ map name (fields (card_embed c))
       = ["Rank"; "Experience"; "Premium"; "Combat Stats"; "Other Stats"; "Equipment"]
    /\ last (fields (card_embed c))
       = Some (mkField "Equipment"
                 ("**Turrets:** Smoky M2, Twins" +:+ nl +:+ "**Hulls:** Hornet") false).
Proof.
  destruct Samples.render_alpha_ok as (c & Hc).
  exists c. split; [exact Hc|].
  exact (CardLaws.card_lists_the_equipment _ _ _ _ _ _ _ _ _
           (<["turrets" := ["Smoky M2"; "Twins"]]> (<["hulls" := ["Hornet"]]> ∅))
           Hc eq_refl).
Defined.
